(** * procdoc_lambda: the document-summarising Lambda handler

    A shallow embedding of [src/procdoc_lambda.py].  The module holds one
    function, [lambda_handler(event, context)], which decodes an image from
    the request, sends it to Textract, joins the detected lines, asks a
    Bedrock model for a summary and reshapes the answer into three lines.

    Python values are embedded as a small universe of JSON-like values,
    exceptions as an error result, the two service clients and the JSON and
    UTF-8 codecs as parameters of a section, and the calls the handler makes
    as a log that every computation carries along. *)

From Stdlib Require Import List NArith ZArith Bool Ascii String Lia.
From Stdlib Require Import Strings.Byte Numbers.DecimalString Numbers.DecimalN.
Import ListNotations.

Local Open Scope N_scope.
Local Open Scope list_scope.

(** ** Strings

    A Python [str] is a sequence of Unicode code points. *)

Definition codepoint := N.
Definition str := list codepoint.
Definition bytes := list byte.

(** An ASCII literal of the source, as a [str]. *)
Fixpoint lit (s : string) : str :=
  match s with
  | EmptyString => []
  | String a r => N_of_ascii a :: lit r
  end.

(** The newline character, ['\n']. *)
Definition NL : codepoint := 10.

Definition str_eqb (a b : str) : bool :=
  if list_eq_dec N.eq_dec a b then true else false.

(** [Py_UNICODE_ISSPACE]: the code points that [str.strip()] removes. *)
Definition isspace (c : codepoint) : bool :=
  ((0x09 <=? c) && (c <=? 0x0D)) || ((0x1C <=? c) && (c <=? 0x20))
  || (c =? 0x85) || (c =? 0xA0) || (c =? 0x1680)
  || ((0x2000 <=? c) && (c <=? 0x200A))
  || (c =? 0x2028) || (c =? 0x2029) || (c =? 0x202F) || (c =? 0x205F)
  || (c =? 0x3000).

Fixpoint lstrip (s : str) : str :=
  match s with
  | [] => []
  | c :: r => if isspace c then lstrip r else s
  end.

Definition rstrip (s : str) : str := rev (lstrip (rev s)).

(** [s.strip()] *)
Definition strip (s : str) : str := rstrip (lstrip s).

(** [s.split(sep)] for a one-character separator: never an empty list. *)
Fixpoint split (sep : codepoint) (s : str) : list str :=
  match s with
  | [] => [[]]
  | c :: r =>
      if c =? sep then [] :: split sep r
      else match split sep r with
           | cur :: more => (c :: cur) :: more
           | [] => [[c]]
           end
  end.

(** [sep.join(parts)] on strings. *)
Fixpoint join (sep : str) (parts : list str) : str :=
  match parts with
  | [] => []
  | [x] => x
  | x :: more => x ++ sep ++ join sep more
  end.

(** [needle in haystack] on strings: a substring test. *)
Fixpoint starts_with (p s : str) : bool :=
  match p, s with
  | [], _ => true
  | _ :: _, [] => false
  | a :: p', b :: s' => (a =? b) && starts_with p' s'
  end.

Fixpoint is_substring (needle hay : str) : bool :=
  starts_with needle hay ||
  match hay with
  | [] => false
  | _ :: hay' => is_substring needle hay'
  end.

(** Decimal rendering of a number, as [%d] and [%zd] print it. *)
Definition decimal (n : N) : str := lit (NilZero.string_of_uint (N.to_uint n)).

(** ** Values

    The values the handler meets come from JSON documents (the event, the
    request body, the model's answer) and from the Textract client, whose
    response is a dict of the same kinds of values.  A float is kept as its
    [repr()], the numeral Python prints for it.  A dict keeps its entries in
    insertion order, which is the order Python iterates them in; a lookup
    finds the first entry with the key. *)

#[local] Set Warnings "-register-all".
Inductive pyval : Type :=
| PNone
| PBool (b : bool)
| PInt (n : Z)
| PFloat (repr : str)
| PStr (s : str)
| PList (items : list pyval)
| PDict (entries : list (str * pyval)).
#[local] Set Warnings "register-all".

(** [type(v).__name__] *)
Definition type_name (v : pyval) : str :=
  match v with
  | PNone => lit "NoneType"
  | PBool _ => lit "bool"
  | PInt _ => lit "int"
  | PFloat _ => lit "float"
  | PStr _ => lit "str"
  | PList _ => lit "list"
  | PDict _ => lit "dict"
  end.

(** [bool(v)] *)
Definition truthy (v : pyval) : bool :=
  match v with
  | PNone => false
  | PBool b => b
  | PInt n => negb (Z.eqb n 0)
  | PFloat r => negb (str_eqb r (lit "0.0") || str_eqb r (lit "-0.0"))
  | PStr s => match s with [] => false | _ => true end
  | PList l => match l with [] => false | _ => true end
  | PDict d => match d with [] => false | _ => true end
  end.

Fixpoint lookup (k : str) (entries : list (str * pyval)) : option pyval :=
  match entries with
  | [] => None
  | (k', v) :: more => if str_eqb k k' then Some v else lookup k more
  end.

(** ** Exceptions

    An instance of [Exception]: its class and [str(e)].  The wording of the
    interpreter's and the library's own messages is CPython 3.12's. *)

Record exn : Type := Exn { exn_class : string; exn_msg : str }.

Inductive res (A : Type) : Type :=
| Ok (a : A)
| Err (e : exn).
Arguments Ok {A} a.
Arguments Err {A} e.

Definition res_bind {A B} (r : res A) (f : A -> res B) : res B :=
  match r with
  | Ok a => f a
  | Err e => Err e
  end.

Declare Scope res_scope.
Delimit Scope res_scope with res.
Notation "x <- r ;; k" := (res_bind r (fun x => k))
  (at level 61, r at next level, right associativity) : res_scope.

Definition quoted (s : str) : str := lit "'" ++ s ++ lit "'".

Definition AttributeError (v : pyval) (attr : string) : exn :=
  Exn "AttributeError"
      (quoted (type_name v) ++ lit " object has no attribute " ++ quoted (lit attr)).

Definition not_subscriptable (v : pyval) : exn :=
  Exn "TypeError" (quoted (type_name v) ++ lit " object is not subscriptable").

Definition not_iterable (v : pyval) : exn :=
  Exn "TypeError" (quoted (type_name v) ++ lit " object is not iterable").

(** ** Operations on values *)

(** [v.get(key, default)]: only a dict has the method. *)
Definition py_get (v : pyval) (key : str) (default : pyval) : res pyval :=
  match v with
  | PDict d => Ok (match lookup key d with Some x => x | None => default end)
  | _ => Err (AttributeError v "get")
  end.

(** [key in v] for a string [key]. *)
Definition py_contains (key : str) (v : pyval) : res bool :=
  match v with
  | PDict d => Ok (match lookup key d with Some _ => true | None => false end)
  | PList l =>
      Ok (existsb (fun x => match x with PStr s => str_eqb s key | _ => false end) l)
  | PStr s => Ok (is_substring key s)
  | _ => Err (Exn "TypeError"
                  (lit "argument of type " ++ quoted (type_name v)
                   ++ lit " is not iterable"))
  end.

(** [v[key]] for a string [key]. *)
Definition py_getitem_str (v : pyval) (key : str) : res pyval :=
  match v with
  | PDict d =>
      match lookup key d with
      | Some x => Ok x
      | None => Err (Exn "KeyError" (quoted key))
      end
  | PList _ =>
      Err (Exn "TypeError" (lit "list indices must be integers or slices, not str"))
  | PStr _ =>
      Err (Exn "TypeError" (lit "string indices must be integers, not 'str'"))
  | _ => Err (not_subscriptable v)
  end.

(** [v[0]] *)
Definition py_getitem_0 (v : pyval) : res pyval :=
  match v with
  | PList (x :: _) => Ok x
  | PList [] => Err (Exn "IndexError" (lit "list index out of range"))
  | PStr (c :: _) => Ok (PStr [c])
  | PStr [] => Err (Exn "IndexError" (lit "string index out of range"))
  | PDict _ => Err (Exn "KeyError" (lit "0"))
  | _ => Err (not_subscriptable v)
  end.

(** [iter(v)], run to the end: a dict yields its keys, a string its
    characters. *)
Definition py_iter (v : pyval) : res (list pyval) :=
  match v with
  | PList l => Ok l
  | PDict d => Ok (map (fun kv => PStr (fst kv)) d)
  | PStr s => Ok (map (fun c => PStr [c]) s)
  | _ => Err (not_iterable v)
  end.

(** [v == s] for a string [s]. *)
Definition py_eq_str (v : pyval) (s : str) : bool :=
  match v with
  | PStr t => str_eqb t s
  | _ => false
  end.

(** [v.strip()]: of the values here only a string has the method. *)
Definition py_strip (v : pyval) : res str :=
  match v with
  | PStr s => Ok (strip s)
  | _ => Err (AttributeError v "strip")
  end.

(** [sep.join(items)]: every item must be a string. *)
Fixpoint str_items (i : N) (items : list pyval) : res (list str) :=
  match items with
  | [] => Ok []
  | PStr s :: more =>
      match str_items (i + 1) more with
      | Ok l => Ok (s :: l)
      | Err e => Err e
      end
  | v :: _ =>
      Err (Exn "TypeError"
               (lit "sequence item " ++ decimal i ++ lit ": expected str instance, "
                ++ type_name v ++ lit " found"))
  end.

Definition py_join (sep : str) (items : list pyval) : res str :=
  match str_items 0 items with
  | Ok l => Ok (join sep l)
  | Err e => Err e
  end.

(** ** Base64

    The handler decodes with the standard library: [base64.b64decode(s)]
    turns a string into ASCII bytes and hands them to [binascii.a2b_base64]
    in its lenient mode, which skips every character outside the alphabet
    and stops at a complete padding.  The definitions follow CPython's
    [Lib/base64.py] and [Modules/binascii.c] (3.11 and later), with the
    names of the C code. *)

Definition BASE64_PAD : codepoint := 61.

Definition b64_alphabet : str :=
  lit "ABCDEFGHIJKLMNOPQRSTUVWXYZabcdefghijklmnopqrstuvwxyz0123456789+/".

(** The character of a six-bit digit. *)
Definition table_b2a_base64 (digit : N) : codepoint :=
  nth (N.to_nat digit) b64_alphabet BASE64_PAD.

(** The six-bit digit of a character, if it is in the alphabet. *)
Definition table_a2b_base64 (c : codepoint) : option N :=
  if (65 <=? c) && (c <=? 90) then Some (c - 65)
  else if (97 <=? c) && (c <=? 122) then Some (c - 71)
  else if (48 <=? c) && (c <=? 57) then Some (c + 4)
  else if c =? 43 then Some 62
  else if c =? 47 then Some 63
  else None.

(** A value stored into an [unsigned char]. *)
Definition u8 (n : N) : byte :=
  match Byte.of_N (n mod 256) with
  | Some b => b
  | None => x00
  end.

Definition binascii_Error (msg : str) : exn := Exn "binascii.Error" msg.

(** The decoding loop: [quad_pos] is the position inside the current group
    of four digits, [leftchar] the bits not yet written, [pads] the padding
    characters seen since the last digit, [bin_data] the bytes written. *)
Fixpoint a2b_loop (ascii_data : list codepoint) (quad_pos leftchar pads : N)
         (bin_data : bytes) : res bytes :=
  match ascii_data with
  | [] =>
      if quad_pos =? 0 then Ok bin_data
      else if quad_pos =? 1 then
        Err (binascii_Error
               (lit "Invalid base64-encoded string: number of data characters ("
                ++ decimal (N.of_nat (List.length bin_data) / 3 * 4 + 1)
                ++ lit ") cannot be 1 more than a multiple of 4"))
      else Err (binascii_Error (lit "Incorrect padding"))
  | this_ch :: rest =>
      if this_ch =? BASE64_PAD then
        if 2 <=? quad_pos then
          if 4 <=? quad_pos + (pads + 1) then Ok bin_data
          else a2b_loop rest quad_pos leftchar (pads + 1) bin_data
        else a2b_loop rest quad_pos leftchar pads bin_data
      else
        match table_a2b_base64 this_ch with
        | None => a2b_loop rest quad_pos leftchar pads bin_data
        | Some digit =>
            match quad_pos with
            | 0 => a2b_loop rest 1 digit 0 bin_data
            | 1 =>
                a2b_loop rest 2 (N.land digit 0x0f) 0
                  (bin_data ++ [u8 (N.lor (N.shiftl leftchar 2) (N.shiftr digit 4))])
            | 2 =>
                a2b_loop rest 3 (N.land digit 0x03) 0
                  (bin_data ++ [u8 (N.lor (N.shiftl leftchar 4) (N.shiftr digit 2))])
            | _ =>
                a2b_loop rest 0 0 0
                  (bin_data ++ [u8 (N.lor (N.shiftl leftchar 6) digit)])
            end
        end
  end.

Definition a2b_base64 (ascii_data : list codepoint) : res bytes :=
  a2b_loop ascii_data 0 0 0 [].

(** [base64.b64decode(s)] *)
Definition b64decode (s : pyval) : res bytes :=
  match s with
  | PStr t =>
      if forallb (fun c => c <? 128) t then a2b_base64 t
      else Err (Exn "ValueError"
                    (lit "string argument should contain only ASCII characters"))
  | _ =>
      Err (Exn "TypeError"
               (lit "argument should be a bytes-like object or ASCII string, not "
                ++ quoted (type_name s)))
  end.

(** The base64 text of a byte string (RFC 4648, what [base64.b64encode]
    produces): three bytes give four digits, and a last group of one or two
    bytes is padded with [=]. *)
Fixpoint b64encode (data : bytes) : str :=
  match data with
  | [] => []
  | [a] =>
      let a := Byte.to_N a in
      [ table_b2a_base64 (N.shiftr a 2);
        table_b2a_base64 (N.shiftl (N.land a 3) 4);
        BASE64_PAD; BASE64_PAD ]
  | [a; b] =>
      let a := Byte.to_N a in
      let b := Byte.to_N b in
      [ table_b2a_base64 (N.shiftr a 2);
        table_b2a_base64 (N.lor (N.shiftl (N.land a 3) 4) (N.shiftr b 4));
        table_b2a_base64 (N.shiftl (N.land b 15) 2);
        BASE64_PAD ]
  | a :: b :: c :: more =>
      let a := Byte.to_N a in
      let b := Byte.to_N b in
      let c := Byte.to_N c in
      table_b2a_base64 (N.shiftr a 2)
      :: table_b2a_base64 (N.lor (N.shiftl (N.land a 3) 4) (N.shiftr b 4))
      :: table_b2a_base64 (N.lor (N.shiftl (N.land b 15) 2) (N.shiftr c 6))
      :: table_b2a_base64 (N.land c 63)
      :: b64encode more
  end.

(** ** Effects

    A statement of the handler either completes with a value, leaves the
    function through [return], or raises.  Around that outcome every
    computation carries the log of the calls it made to the outside: the two
    service clients and [print]. *)

Record response : Type := { statusCode : Z; body : str }.

Inductive call : Type :=
| detect_document_text_call (Bytes : bytes)
| invoke_model_call (contentType request modelId : str)
| print_call (line : str).

Inductive outcome (A : Type) : Type :=
| Normal (a : A)
| Return (r : response)
| Raise (e : exn).
Arguments Normal {A} a.
Arguments Return {A} r.
Arguments Raise {A} e.

Definition M (A : Type) : Type := (list call * outcome A)%type.

Definition ret {A} (a : A) : M A := ([], Normal a).

Definition bind {A B} (m : M A) (f : A -> M B) : M B :=
  match m with
  | (log, Normal a) => let (log', o) := f a in (log ++ log', o)
  | (log, Return r) => (log, Return r)
  | (log, Raise e) => (log, Raise e)
  end.

(** A pure operation that may raise. *)
Definition lift {A} (r : res A) : M A :=
  match r with
  | Ok a => ([], Normal a)
  | Err e => ([], Raise e)
  end.

(** [return r] *)
Definition return_ {A} (r : response) : M A := ([], Return r).

Declare Scope handler_scope.
Delimit Scope handler_scope with M.
Notation "x <- m ;; k" := (bind m (fun x => k))
  (at level 61, m at next level, right associativity) : handler_scope.

(** ** The handler *)

Section Handler.

(** [textract.detect_document_text(Document={"Bytes": b})]: the response
    dict, or the exception the client raises. *)
Variable detect_document_text : bytes -> res pyval.

(** [bedrock.invoke_model(contentType=c, body=b, modelId=m)['body'].read()]:
    the bytes of the response body, or the exception raised on the way. *)
Variable invoke_model : str -> str -> str -> res bytes.

(** [json.loads] on a string, [json.dumps], and [bytes.decode('utf-8')].
    [json.dumps] raises on no value of [pyval]: all of them are JSON. *)
Variable json_loads : str -> res pyval.
Variable json_dumps : pyval -> str.
Variable utf8_decode : bytes -> res str.

Definition call_detect_document_text (image_bytes : bytes) : M pyval :=
  match detect_document_text image_bytes with
  | Ok v => ([detect_document_text_call image_bytes], Normal v)
  | Err e => ([detect_document_text_call image_bytes], Raise e)
  end.

Definition call_invoke_model (contentType request modelId : str) : M bytes :=
  match invoke_model contentType request modelId with
  | Ok v => ([invoke_model_call contentType request modelId], Normal v)
  | Err e => ([invoke_model_call contentType request modelId], Raise e)
  end.

(** [json.loads(v)]: anything but text is a [TypeError]. *)
Definition py_json_loads (v : pyval) : res pyval :=
  match v with
  | PStr s => json_loads s
  | _ =>
      Err (Exn "TypeError"
               (lit "the JSON object must be str, bytes or bytearray, not "
                ++ type_name v))
  end.

Definition no_file_data : response :=
  {| statusCode := 400; body := json_dumps (PStr (lit "No file data provided")) |}.

Definition no_text : response :=
  {| statusCode := 400; body := json_dumps (PStr (lit "OCR found no text")) |}.

(** Lines 10-18: the image bytes of the request. *)
Definition decode_input (event : pyval) : M bytes :=
  (body <- lift (py_get event (lit "body") (PStr []));;
   flag <- lift (py_get event (lit "isBase64Encoded") (PBool false));;
   if truthy flag then lift (b64decode body)
   else
     event_data <- (if truthy body then lift (py_json_loads body)
                    else ret (PDict []));;
     present <- lift (py_contains (lit "file_data") event_data);;
     if present : bool then
       file_data <- lift (py_getitem_str event_data (lit "file_data"));;
       lift (b64decode file_data)
     else return_ no_file_data)%M.

(** Lines 22-23: the comprehension
    [[item["Text"] for item in blocks if item.get("BlockType") == "LINE"]]. *)
Fixpoint text_lines_of (blocks : list pyval) : res (list pyval) :=
  match blocks with
  | [] => Ok []
  | item :: more =>
      (block_type <- py_get item (lit "BlockType") PNone;;
       if py_eq_str block_type (lit "LINE") then
         text <- py_getitem_str item (lit "Text");;
         rest <- text_lines_of more;;
         Ok (text :: rest)
       else text_lines_of more)%res
  end.

(** Lines 21-27: OCR with Textract. *)
Definition ocr (image_bytes : bytes) : M str :=
  (textract_response <- call_detect_document_text image_bytes;;
   blocks <- lift (py_get textract_response (lit "Blocks") (PList []));;
   items <- lift (py_iter blocks);;
   text_lines <- lift (text_lines_of items);;
   full_text <- lift (py_join [NL] text_lines);;
   if truthy (PStr full_text) then ret full_text
   else return_ no_text)%M.

(** Lines 46-51: the generated text cut into exactly three lines. *)
Definition summary_lines_of (summary_text : str) : list str :=
  let summary_lines :=
    map strip
        (filter (fun line => truthy (PStr (strip line)))
                (split NL (strip summary_text))) in
  if (3 <? List.length summary_lines)%nat then firstn 3 summary_lines
  else if (List.length summary_lines <? 3)%nat then
    summary_lines ++ repeat [] (3 - List.length summary_lines)%nat
  else summary_lines.

(** Line 46 starts with [summary_text.strip()], which only text has. *)
Definition py_summary_lines (summary_text : pyval) : res (list str) :=
  match summary_text with
  | PStr s => Ok (summary_lines_of s)
  | _ => Err (AttributeError summary_text "strip")
  end.

Definition prompt_of (full_text : str) : str :=
  lit "Summarize this tax document in exactly 3 lines:" ++ [NL] ++ full_text.

Definition bedrock_request (prompt : str) : pyval :=
  PDict [ (lit "anthropic_version", PStr (lit "bedrock-2023-05-31"));
          (lit "max_tokens", PInt 200);
          (lit "messages",
           PList [PDict [ (lit "role", PStr (lit "user"));
                          (lit "content", PStr prompt) ]]) ].

(** Lines 30-51: the summary, generated and reshaped. *)
Definition summarize (full_text : str) : M (list str) :=
  (let prompt := prompt_of full_text in
   raw <- call_invoke_model (lit "application/json")
                            (json_dumps (bedrock_request prompt))
                            (lit "anthropic.claude-3-sonnet-20240229-v1:0");;
   text <- lift (utf8_decode raw);;
   result_json <- lift (json_loads text);;
   content <- lift (py_get result_json (lit "content") (PList [PDict []]));;
   segment <- lift (py_getitem_0 content);;
   summary_text <- lift (py_get segment (lit "text") (PStr []));;
   lift (py_summary_lines summary_text))%M.

Definition success (full_text : str) (summary_lines : list str) : response :=
  {| statusCode := 200;
     body := json_dumps
               (PDict [ (lit "extracted_text", PStr full_text);
                        (lit "summary", PList (map PStr summary_lines)) ]) |}.

(** Lines 10-57: the body of the [try].  It always ends in a [return] or
    raises, so it has no normal outcome. *)
Definition try_body (event : pyval) : M Empty_set :=
  (image_bytes <- decode_input event;;
   full_text <- ocr image_bytes;;
   summary_lines <- summarize full_text;;
   return_ (success full_text summary_lines))%M.

Definition server_error (e : exn) : response :=
  {| statusCode := 500;
     body := json_dumps (PStr (lit "Server error: " ++ exn_msg e)) |}.

(** [lambda_handler(event, context)]: the calls made and the response. *)
Definition lambda_handler (event context : pyval) : list call * response :=
  match try_body event with
  | (log, Normal impossible) => match impossible with end
  | (log, Return r) => (log, r)
  | (log, Raise e) =>
      (log ++ [print_call (lit "Error: " ++ exn_msg e)], server_error e)
  end.

End Handler.

(** ** The specification's wording

    What the specification says of the summary and of the extracted text,
    written down independently of the handler, to compare the two. *)

Definition nonempty (s : str) : bool :=
  match s with
  | [] => false
  | _ :: _ => true
  end.

(** Strip the text, split it on newlines, strip every line, drop the empty
    ones, keep at most the first three, pad with empty strings to three. *)
Definition normalize_spec (generated : str) : list str :=
  let stripped := strip generated in
  let lines := split NL stripped in
  let lines := map strip lines in
  let lines := filter nonempty lines in
  let lines := firstn 3 lines in
  lines ++ repeat [] (3 - List.length lines)%nat.

(** A block of the OCR result is classified as a line, and its text payload. *)
Definition is_line_block (block : pyval) : bool :=
  match block with
  | PDict d =>
      match lookup (lit "BlockType") d with
      | Some v => py_eq_str v (lit "LINE")
      | None => false
      end
  | _ => false
  end.

Definition is_block (block : pyval) : bool :=
  match block with
  | PDict _ => true
  | _ => false
  end.

Definition text_payload (block : pyval) : str :=
  match block with
  | PDict d =>
      match lookup (lit "Text") d with
      | Some (PStr s) => s
      | _ => []
      end
  | _ => []
  end.

(** The line blocks, in the order given, their texts joined by a newline. *)
Definition joined_lines (blocks : list pyval) : str :=
  join [NL] (map text_payload (filter is_line_block blocks)).

(** A summary entry holds a newline; it starts or ends with whitespace. *)
Definition has_newline (s : str) : bool := existsb (N.eqb NL) s.

Definition edge_space (s : str) : bool :=
  match s with
  | [] => false
  | c :: _ => isspace c || isspace (last s c)
  end.

(** ** Checks over all bytes

    The numbers below 256, to settle a fact about one or two bytes by
    computing it on every value. *)

Definition u8_range : list N := map N.of_nat (seq 0 256).

Definition for_all_u8 (P : N -> bool) : bool := forallb P u8_range.

Definition for_all_u8_pairs (P : N -> N -> bool) : bool :=
  for_all_u8 (fun a => for_all_u8 (P a)).

(** ** Requests and answers, by their parts

    Names for the parts of a request and of the services' answers that the
    statements below speak about. *)

(** [event.get(key, default)] on the entries of an event. *)
Definition event_get (entries : list (str * pyval)) (key : string)
           (default : pyval) : pyval :=
  match lookup (lit key) entries with
  | Some v => v
  | None => default
  end.

Definition event_body (entries : list (str * pyval)) : pyval :=
  event_get entries "body" (PStr []).

Definition event_flag (entries : list (str * pyval)) : pyval :=
  event_get entries "isBase64Encoded" (PBool false).

(** A payload that is present and cannot be decoded: the base64 of the whole
    body, the JSON of the body, or the base64 of its [file_data] field. *)
Inductive undecodable (json_loads : str -> res pyval)
          (entries : list (str * pyval)) (e : exn) : Prop :=
| bad_base64_body :
    truthy (event_flag entries) = true ->
    b64decode (event_body entries) = Err e ->
    undecodable json_loads entries e
| bad_json_body (text : str) :
    truthy (event_flag entries) = false ->
    event_body entries = PStr text ->
    text <> [] ->
    json_loads text = Err e ->
    undecodable json_loads entries e
| bad_base64_field (text : str) (object : list (str * pyval)) (file_data : pyval) :
    truthy (event_flag entries) = false ->
    event_body entries = PStr text ->
    text <> [] ->
    json_loads text = Ok (PDict object) ->
    lookup (lit "file_data") object = Some file_data ->
    b64decode file_data = Err e ->
    undecodable json_loads entries e.

(** A block as Textract emits it: a dict, and with a text when it is a
    line. *)
Definition well_formed_block (block : pyval) : bool :=
  match block with
  | PDict d =>
      if is_line_block block then
        match lookup (lit "Text") d with
        | Some (PStr _) => true
        | _ => false
        end
      else true
  | _ => false
  end.

(** ** Kinds of values and of base64 text

    Names for what further statements speak about: a value is a dict, or a
    string; a character counts for the base64 decoder; an encoding has lost
    its padding. *)

Definition is_dict (v : pyval) : bool :=
  match v with
  | PDict _ => true
  | _ => false
  end.

Definition is_str (v : pyval) : bool :=
  match v with
  | PStr _ => true
  | _ => false
  end.

(** The characters the decoder reads: the padding and the alphabet. *)
Definition b64_significant (c : codepoint) : bool :=
  (c =? BASE64_PAD)
  || match table_a2b_base64 c with
     | Some _ => true
     | None => false
     end.

(** The base64 text of a byte string with its padding left off, as encoders
    for URLs and tokens write it. *)
Definition b64encode_unpadded (data : bytes) : str :=
  filter (fun c => negb (c =? BASE64_PAD)) (b64encode data).

(** A summary line as the handler leaves it: with a character, without a
    newline, without whitespace at either end. *)
Definition clean_line (s : str) : Prop :=
  s <> [] /\ has_newline s = false /\ edge_space s = false.

(** ** Codecs and services for sample runs

    The statements below hold for every behaviour of the services and the
    codecs.  The sample runs fix one: [json.dumps] with its default options,
    UTF-8 decoding on ASCII bytes, [json.loads] on the few documents of the
    runs, and services with canned answers. *)

Definition hex_digit (n : N) : codepoint :=
  nth (N.to_nat n) (lit "0123456789abcdef") 48.

Definition BACKSLASH : codepoint := 92.
Definition QUOTE : codepoint := 34.

Definition u_escape (c : N) : str :=
  [ BACKSLASH; 117; hex_digit (c / 4096 mod 16); hex_digit (c / 256 mod 16);
    hex_digit (c / 16 mod 16); hex_digit (c mod 16) ].

Definition escape_char (c : codepoint) : str :=
  if c =? QUOTE then [BACKSLASH; QUOTE]
  else if c =? BACKSLASH then [BACKSLASH; BACKSLASH]
  else if c =? 10 then BACKSLASH :: lit "n"
  else if c =? 13 then BACKSLASH :: lit "r"
  else if c =? 9 then BACKSLASH :: lit "t"
  else if c =? 8 then BACKSLASH :: lit "b"
  else if c =? 12 then BACKSLASH :: lit "f"
  else if (32 <=? c) && (c <=? 126) then [c]
  else if c <? 0x10000 then u_escape c
  else u_escape (0xD800 + (c - 0x10000) / 1024)
       ++ u_escape (0xDC00 + (c - 0x10000) mod 1024).

(** A string as a JSON string, all in ASCII. *)
Definition json_string (s : str) : str :=
  [QUOTE] ++ flat_map escape_char s ++ [QUOTE].

Definition json_int (n : Z) : str :=
  if (n <? 0)%Z then lit "-" ++ decimal (Z.to_N (- n)) else decimal (Z.to_N n).

Definition json_float (repr : str) : str :=
  if str_eqb repr (lit "nan") then lit "NaN"
  else if str_eqb repr (lit "inf") then lit "Infinity"
  else if str_eqb repr (lit "-inf") then lit "-Infinity"
  else repr.

(** [json.dumps(v)] *)
Fixpoint dumps (v : pyval) : str :=
  match v with
  | PNone => lit "null"
  | PBool true => lit "true"
  | PBool false => lit "false"
  | PInt n => json_int n
  | PFloat r => json_float r
  | PStr s => json_string s
  | PList items => lit "[" ++ join (lit ", ") (map dumps items) ++ lit "]"
  | PDict entries =>
      lit "{"
      ++ join (lit ", ")
              (map (fun kv => match kv with
                              | (k, x) => json_string k ++ lit ": " ++ dumps x
                              end) entries)
      ++ lit "}"
  end.

(** [b.decode('utf-8')] on ASCII bytes. *)
Definition ascii_decode (b : bytes) : res str :=
  if forallb (fun x => Byte.to_N x <? 128) b then Ok (map Byte.to_N b)
  else Err (Exn "UnicodeDecodeError" (lit "'utf-8' codec can't decode bytes")).

Definition ascii_encode (s : str) : bytes := map u8 s.

(** [json.loads] on the documents of a table, each with its value. *)
Definition loads_from (table : list (str * pyval)) (text : str) : res pyval :=
  match lookup text table with
  | Some v => Ok v
  | None => Err (Exn "JSONDecodeError" (lit "Expecting value: line 1 column 1 (char 0)"))
  end.

Definition block (block_type : string) (text : string) : pyval :=
  PDict [ (lit "BlockType", PStr (lit block_type)); (lit "Text", PStr (lit text)) ].

(** The image [b"hello"], and the request bodies that carry it. *)
Definition sample_image : bytes := list_byte_of_string "hello".

Definition sample_envelope : pyval :=
  PDict [ (lit "file_data", PStr (lit "aGVsbG8=")) ].

(** A page with two lines, as Textract reports it. *)
Definition sample_blocks : list pyval :=
  [ PDict [ (lit "BlockType", PStr (lit "PAGE")) ];
    block "LINE" "Form W-2";
    block "WORD" "Form";
    block "WORD" "W-2";
    block "LINE" "Wages 1000" ].

Definition sample_textract (blocks : list pyval) : bytes -> res pyval :=
  fun _ => Ok (PDict [ (lit "Blocks", PList blocks) ]).

(** An answer of the model with two lines of text around an empty one. *)
Definition sample_answer : pyval :=
  PDict [ (lit "content",
           PList [ PDict [ (lit "type", PStr (lit "text"));
                           (lit "text",
                            PStr (lit " A W-2 form. " ++ [NL; NL]
                                  ++ lit "Wages are 1000.")) ] ]) ].

Definition sample_bedrock (answer : pyval) : str -> str -> str -> res bytes :=
  fun _ _ _ => Ok (ascii_encode (dumps answer)).

(** The documents the sample runs parse. *)
Definition sample_documents (answer : pyval) : list (str * pyval) :=
  [ (dumps sample_envelope, sample_envelope);
    (dumps answer, answer);
    (lit "null", PNone);
    (lit "{}", PDict []) ].

Definition failing_client (message : string) : exn :=
  Exn "ClientError" (lit message).

(** The handler of a sample run. *)
Definition sample_handler (textract : bytes -> res pyval)
           (bedrock : str -> str -> str -> res bytes) (answer : pyval)
           (event : pyval) : list call * response :=
  lambda_handler textract bedrock (loads_from (sample_documents answer)) dumps
                 ascii_decode event PNone.

Definition sample_event (body : pyval) (is_base64 : bool) : pyval :=
  PDict [ (lit "body", body); (lit "isBase64Encoded", PBool is_base64) ].

(** ** Tactics *)

(** Split on the next result or test a computation branches on. *)
Ltac case_res :=
  match goal with
  | |- context [match ?r with Ok _ => _ | Err _ => _ end] => destruct r eqn:?
  | |- context [if ?b then _ else _] => destruct b eqn:?
  end.

(** * Properties *)

(** ** Strings *)

Lemma str_eqb_refl (s : str) : str_eqb s s = true.
Proof. unfold str_eqb. destruct (list_eq_dec N.eq_dec s s); congruence. Qed.

Lemma str_eqb_eq (a b : str) : str_eqb a b = true <-> a = b.
Proof.
  unfold str_eqb. destruct (list_eq_dec N.eq_dec a b); split; congruence.
Qed.

Lemma lstrip_suffix (s : str) : exists p, s = p ++ lstrip s.
Proof.
  induction s as [|c r [p IH]]; simpl.
  - now exists [].
  - destruct (isspace c).
    + exists (c :: p). simpl. now f_equal.
    + now exists [].
Qed.

Lemma lstrip_In c (s : str) : In c (lstrip s) -> In c s.
Proof.
  destruct (lstrip_suffix s) as [p E]. intro H. rewrite E.
  apply in_or_app. now right.
Qed.

Lemma strip_In c (s : str) : In c (strip s) -> In c s.
Proof.
  unfold strip, rstrip. intro H.
  apply lstrip_In. apply in_rev. apply lstrip_In. now apply in_rev in H.
Qed.

Lemma lstrip_head (s : str) c r : lstrip s = c :: r -> isspace c = false.
Proof.
  induction s as [|d s IH]; simpl; [discriminate|].
  destruct (isspace d) eqn:E; [exact IH|]. congruence.
Qed.

Lemma lstrip_snoc (s : str) c :
  isspace c = false -> lstrip (s ++ [c]) = lstrip s ++ [c].
Proof.
  intro H. induction s as [|d s IH]; simpl.
  - now rewrite H.
  - destruct (isspace d); [exact IH | reflexivity].
Qed.

(** Stripping the right end keeps a first character that is not a space. *)
Lemma rstrip_cons c (r : str) :
  isspace c = false -> exists r', rstrip (c :: r) = c :: r'.
Proof.
  intro H. unfold rstrip. simpl rev. rewrite (lstrip_snoc _ _ H).
  rewrite rev_app_distr. simpl. now eexists.
Qed.

Lemma rstrip_last (s : str) d :
  rstrip s <> [] -> isspace (last (rstrip s) d) = false.
Proof.
  unfold rstrip. intro H.
  destruct (lstrip (rev s)) as [|c t] eqn:E; [now elim H|].
  simpl rev. rewrite last_last. exact (lstrip_head _ _ _ E).
Qed.

Lemma strip_edges (s : str) : edge_space (strip s) = false.
Proof.
  unfold strip. destruct (lstrip s) as [|c r] eqn:E.
  - reflexivity.
  - pose proof (lstrip_head _ _ _ E) as Hc.
    destruct (rstrip_cons c r Hc) as [r' Hr].
    assert (Hl : isspace (last (rstrip (c :: r)) c) = false)
      by (apply rstrip_last; rewrite Hr; discriminate).
    rewrite Hr in *. unfold edge_space. now rewrite Hc, Hl.
Qed.

Lemma split_no_sep sep (s : str) :
  Forall (fun line => ~ In sep line) (split sep s).
Proof.
  induction s as [|c r IH]; simpl.
  - constructor; [intros [] | constructor].
  - destruct (N.eqb_spec c sep) as [->|Hne].
    + constructor; [intros [] | exact IH].
    + destruct (split sep r) as [|cur more]; inversion IH; subst.
      * constructor; [|constructor]. intros [->|[]]. now elim Hne.
      * constructor; [|assumption]. intros [->|Hin]; [now elim Hne | auto].
Qed.

Lemma firstn_incl {A} n (l : list A) x : In x (firstn n l) -> In x l.
Proof.
  intro H. rewrite <- (firstn_skipn n l). apply in_or_app. now left.
Qed.

Lemma has_newline_false (s : str) : ~ In NL s -> has_newline s = false.
Proof.
  unfold has_newline. intro H. destruct (existsb (N.eqb NL) s) eqn:E; [|reflexivity].
  apply existsb_exists in E. destruct E as [x [Hin Hx]].
  apply N.eqb_eq in Hx. subst. now elim H.
Qed.

(** ** The three summary lines *)

Lemma truthy_PStr (s : str) : truthy (PStr s) = nonempty s.
Proof. now destruct s. Qed.

Lemma kept_lines_spec (lines : list str) :
  map strip (filter (fun line => truthy (PStr (strip line))) lines)
  = filter nonempty (map strip lines).
Proof.
  rewrite filter_map_swap. reflexivity.
Qed.

Lemma three_lines (l : list str) :
  (if (3 <? List.length l)%nat then firstn 3 l
   else if (List.length l <? 3)%nat then l ++ repeat [] (3 - List.length l)%nat
        else l)
  = firstn 3 l ++ repeat [] (3 - List.length (firstn 3 l))%nat.
Proof.
  destruct l as [|a [|b [|c [|d l]]]]; reflexivity.
Qed.

Lemma summary_lines_of_spec (text : str) :
  summary_lines_of text = normalize_spec text.
Proof.
  unfold summary_lines_of, normalize_spec. cbv zeta.
  rewrite kept_lines_spec. apply three_lines.
Qed.

Lemma normalize_spec_length (text : str) : List.length (normalize_spec text) = 3%nat.
Proof.
  unfold normalize_spec. cbv zeta.
  set (l := filter nonempty (map strip (split NL (strip text)))).
  destruct l as [|a [|b [|c [|d l]]]]; reflexivity.
Qed.

Lemma summary_lines_of_length (text : str) :
  List.length (summary_lines_of text) = 3%nat.
Proof. rewrite summary_lines_of_spec. apply normalize_spec_length. Qed.

Lemma summary_lines_of_three (text : str) :
  exists a b c, summary_lines_of text = [a; b; c].
Proof.
  pose proof (summary_lines_of_length text) as H.
  destruct (summary_lines_of text) as [|a [|b [|c [|d l]]]]; try discriminate.
  now exists a, b, c.
Qed.

Lemma summary_line_clean (text line : str) :
  In line (summary_lines_of text) ->
  has_newline line = false /\ edge_space line = false.
Proof.
  rewrite summary_lines_of_spec. unfold normalize_spec. cbv zeta.
  intro H. apply in_app_or in H. destruct H as [H|H].
  - apply firstn_incl in H. apply filter_In in H. destruct H as [H _].
    apply in_map_iff in H. destruct H as [raw [<- Hraw]]. split.
    + apply has_newline_false. intro Hin. apply strip_In in Hin.
      pose proof (split_no_sep NL (strip text)) as F.
      rewrite Forall_forall in F. exact (F _ Hraw Hin).
    + apply strip_edges.
  - apply repeat_spec in H. subst. split; reflexivity.
Qed.

(** ** Base64: decoding an encoding gives the bytes back *)

Lemma u8_range_In n : n < 256 -> In n u8_range.
Proof.
  intro H. unfold u8_range. apply in_map_iff. exists (N.to_nat n).
  split; [apply N2Nat.id | apply in_seq; lia].
Qed.

Lemma for_all_u8_spec (P : N -> bool) :
  for_all_u8 P = true -> forall n, n < 256 -> P n = true.
Proof.
  unfold for_all_u8. rewrite forallb_forall. intros H n Hn.
  apply H, u8_range_In, Hn.
Qed.

Lemma for_all_u8_pairs_spec (P : N -> N -> bool) :
  for_all_u8_pairs P = true ->
  forall a b, a < 256 -> b < 256 -> P a b = true.
Proof.
  intros H a b Ha Hb. unfold for_all_u8_pairs in H.
  apply (for_all_u8_spec (P a)); [|exact Hb].
  exact (for_all_u8_spec _ H a Ha).
Qed.

Ltac by_bytes P :=
  first [ apply (for_all_u8_spec P) | apply (for_all_u8_pairs_spec P) ];
  vm_compute; reflexivity.

Lemma to_N_lt (x : byte) : Byte.to_N x < 256.
Proof. pose proof (Byte.to_N_bounded x). lia. Qed.

Lemma u8_of_mod n (x : byte) : n mod 256 = Byte.to_N x -> u8 n = x.
Proof. intro H. unfold u8. now rewrite H, Byte.of_to_N. Qed.

(** The alphabet: every digit has a character, which is not the padding and
    maps back to the digit. *)
Lemma digit_char d :
  d < 64 ->
  (table_b2a_base64 d =? BASE64_PAD) = false
  /\ table_a2b_base64 (table_b2a_base64 d) = Some d.
Proof.
  intro H. assert (Hd : d < 256) by lia.
  pose proof (for_all_u8_spec
    (fun d => if d <? 64 then
                negb (table_b2a_base64 d =? BASE64_PAD)
                && match table_a2b_base64 (table_b2a_base64 d) with
                   | Some d' => d' =? d
                   | None => false
                   end
              else true) eq_refl d Hd) as C.
  cbv beta in C. apply N.ltb_lt in H. rewrite H in C.
  apply andb_prop in C. destruct C as [C1 C2].
  apply negb_true_iff in C1. split; [exact C1|].
  destruct (table_a2b_base64 (table_b2a_base64 d)); [|discriminate].
  apply N.eqb_eq in C2. now subst.
Qed.

Lemma char_ascii d : (table_b2a_base64 d <? 128) = true.
Proof.
  unfold table_b2a_base64.
  destruct (nth_in_or_default (N.to_nat d) b64_alphabet BASE64_PAD) as [H| ->].
  - apply (proj1 (forallb_forall (fun c => c <? 128) b64_alphabet));
      [reflexivity | exact H].
  - reflexivity.
Qed.

(** One step of the loop on the character of a digit. *)
Lemma a2b_loop_digit d rest quad_pos leftchar pads bin_data :
  d < 64 ->
  a2b_loop (table_b2a_base64 d :: rest) quad_pos leftchar pads bin_data
  = match quad_pos with
    | 0 => a2b_loop rest 1 d 0 bin_data
    | 1 =>
        a2b_loop rest 2 (N.land d 0x0f) 0
          (bin_data ++ [u8 (N.lor (N.shiftl leftchar 2) (N.shiftr d 4))])
    | 2 =>
        a2b_loop rest 3 (N.land d 0x03) 0
          (bin_data ++ [u8 (N.lor (N.shiftl leftchar 4) (N.shiftr d 2))])
    | _ =>
        a2b_loop rest 0 0 0
          (bin_data ++ [u8 (N.lor (N.shiftl leftchar 6) d)])
    end.
Proof.
  intro H. destruct (digit_char d H) as [Hpad Htab].
  cbn [a2b_loop]. rewrite Hpad, Htab. reflexivity.
Qed.

(** The four digits of a group are digits. *)
Lemma digit0_bound a : a < 256 -> N.shiftr a 2 < 64.
Proof.
  intro H. apply N.ltb_lt. revert a H.
  by_bytes (fun a => N.shiftr a 2 <? 64).
Qed.

Lemma digit1_bound a b :
  a < 256 -> b < 256 -> N.lor (N.shiftl (N.land a 3) 4) (N.shiftr b 4) < 64.
Proof.
  intros Ha Hb. apply N.ltb_lt. revert a b Ha Hb.
  by_bytes (fun a b => N.lor (N.shiftl (N.land a 3) 4) (N.shiftr b 4) <? 64).
Qed.

Lemma digit2_bound b c :
  b < 256 -> c < 256 -> N.lor (N.shiftl (N.land b 15) 2) (N.shiftr c 6) < 64.
Proof.
  intros Hb Hc. apply N.ltb_lt. revert b c Hb Hc.
  by_bytes (fun b c => N.lor (N.shiftl (N.land b 15) 2) (N.shiftr c 6) <? 64).
Qed.

Lemma digit3_bound c : c < 256 -> N.land c 63 < 64.
Proof.
  intro H. apply N.ltb_lt. revert c H.
  by_bytes (fun c => N.land c 63 <? 64).
Qed.

(** The bits the decoder keeps between two digits, and the bytes it puts
    together again. *)
Lemma left_after_digit1 a b :
  a < 256 -> b < 256 ->
  N.land (N.lor (N.shiftl (N.land a 3) 4) (N.shiftr b 4)) 0x0f = N.shiftr b 4.
Proof.
  intros Ha Hb. apply N.eqb_eq. revert a b Ha Hb.
  by_bytes (fun a b =>
    N.land (N.lor (N.shiftl (N.land a 3) 4) (N.shiftr b 4)) 0x0f =? N.shiftr b 4).
Qed.

Lemma left_after_digit2 b c :
  b < 256 -> c < 256 ->
  N.land (N.lor (N.shiftl (N.land b 15) 2) (N.shiftr c 6)) 0x03 = N.shiftr c 6.
Proof.
  intros Hb Hc. apply N.eqb_eq. revert b c Hb Hc.
  by_bytes (fun b c =>
    N.land (N.lor (N.shiftl (N.land b 15) 2) (N.shiftr c 6)) 0x03 =? N.shiftr c 6).
Qed.

Lemma byte0_back a b :
  a < 256 -> b < 256 ->
  N.lor (N.shiftl (N.shiftr a 2) 2)
        (N.shiftr (N.lor (N.shiftl (N.land a 3) 4) (N.shiftr b 4)) 4) mod 256 = a.
Proof.
  intros Ha Hb. apply N.eqb_eq. revert a b Ha Hb.
  by_bytes (fun a b =>
    N.lor (N.shiftl (N.shiftr a 2) 2)
          (N.shiftr (N.lor (N.shiftl (N.land a 3) 4) (N.shiftr b 4)) 4) mod 256 =? a).
Qed.

Lemma byte1_back b c :
  b < 256 -> c < 256 ->
  N.lor (N.shiftl (N.shiftr b 4) 4)
        (N.shiftr (N.lor (N.shiftl (N.land b 15) 2) (N.shiftr c 6)) 2) mod 256 = b.
Proof.
  intros Hb Hc. apply N.eqb_eq. revert b c Hb Hc.
  by_bytes (fun b c =>
    N.lor (N.shiftl (N.shiftr b 4) 4)
          (N.shiftr (N.lor (N.shiftl (N.land b 15) 2) (N.shiftr c 6)) 2) mod 256 =? b).
Qed.

Lemma byte2_back c :
  c < 256 -> N.lor (N.shiftl (N.shiftr c 6) 6) (N.land c 63) mod 256 = c.
Proof.
  intro H. apply N.eqb_eq. revert c H.
  by_bytes (fun c => N.lor (N.shiftl (N.shiftr c 6) 6) (N.land c 63) mod 256 =? c).
Qed.

(** A last group of one or two bytes is a group whose missing bytes are
    zero. *)
Lemma shiftr_zero n : N.shiftr 0 n = 0.
Proof. apply N.shiftr_0_l. Qed.

Lemma list_ind3 {A} (P : list A -> Prop) :
  P [] -> (forall a, P [a]) -> (forall a b, P [a; b]) ->
  (forall a b c l, P l -> P (a :: b :: c :: l)) ->
  forall l, P l.
Proof.
  intros H0 H1 H2 H3.
  fix IH 1.
  intros [|a [|b [|c l]]]; [exact H0 | apply H1 | apply H2 | apply H3, IH].
Qed.

Lemma a2b_loop_b64encode (data : bytes) :
  forall bin_data,
    a2b_loop (b64encode data) 0 0 0 bin_data = Ok (bin_data ++ data).
Proof.
  induction data as [|a|a b|a b c more IH] using list_ind3; intro bin.
  - simpl. now rewrite app_nil_r.
  - pose proof (to_N_lt a) as Ha.
    assert (H0 : 0 < 256) by lia.
    cbn [b64encode]. cbv zeta.
    rewrite <- (N.lor_0_r (N.shiftl (N.land (Byte.to_N a) 3) 4)).
    rewrite <- (shiftr_zero 4) at 1.
    rewrite (a2b_loop_digit _ _ _ _ _ _ (digit0_bound _ Ha)).
    rewrite (a2b_loop_digit _ _ _ _ _ _ (digit1_bound _ _ Ha H0)).
    rewrite (u8_of_mod _ a (byte0_back _ _ Ha H0)).
    reflexivity.
  - pose proof (to_N_lt a) as Ha. pose proof (to_N_lt b) as Hb.
    assert (H0 : 0 < 256) by lia.
    cbn [b64encode]. cbv zeta.
    rewrite <- (N.lor_0_r (N.shiftl (N.land (Byte.to_N b) 15) 2)).
    rewrite <- (shiftr_zero 6) at 1.
    rewrite (a2b_loop_digit _ _ _ _ _ _ (digit0_bound _ Ha)).
    rewrite (a2b_loop_digit _ _ _ _ _ _ (digit1_bound _ _ Ha Hb)).
    rewrite (a2b_loop_digit _ _ _ _ _ _ (digit2_bound _ _ Hb H0)).
    rewrite (left_after_digit1 _ _ Ha Hb).
    rewrite (u8_of_mod _ a (byte0_back _ _ Ha Hb)).
    rewrite (u8_of_mod _ b (byte1_back _ _ Hb H0)).
    cbn. now rewrite <- app_assoc.
  - pose proof (to_N_lt a) as Ha. pose proof (to_N_lt b) as Hb.
    pose proof (to_N_lt c) as Hc.
    cbn [b64encode]. cbv zeta.
    rewrite (a2b_loop_digit _ _ _ _ _ _ (digit0_bound _ Ha)).
    rewrite (a2b_loop_digit _ _ _ _ _ _ (digit1_bound _ _ Ha Hb)).
    rewrite (a2b_loop_digit _ _ _ _ _ _ (digit2_bound _ _ Hb Hc)).
    rewrite (a2b_loop_digit _ _ _ _ _ _ (digit3_bound _ Hc)).
    rewrite (left_after_digit1 _ _ Ha Hb), (left_after_digit2 _ _ Hb Hc).
    rewrite (u8_of_mod _ a (byte0_back _ _ Ha Hb)).
    rewrite (u8_of_mod _ b (byte1_back _ _ Hb Hc)).
    rewrite (u8_of_mod _ c (byte2_back _ Hc)).
    rewrite IH. f_equal. now rewrite <- !app_assoc.
Qed.

Lemma b64encode_ascii (data : bytes) :
  forallb (fun c => c <? 128) (b64encode data) = true.
Proof.
  induction data as [|a|a b|a b c more IH] using list_ind3;
    cbn [b64encode forallb]; cbv zeta; rewrite ?char_ascii, ?IH; reflexivity.
Qed.

(** [base64.b64decode(base64.b64encode(data)) == data] *)
Lemma b64decode_b64encode (data : bytes) :
  b64decode (PStr (b64encode data)) = Ok data.
Proof.
  unfold b64decode. rewrite b64encode_ascii. unfold a2b_base64.
  now rewrite a2b_loop_b64encode.
Qed.

(** ** Base64: what the decoder skips, and an encoding without padding *)

Lemma a2b_loop_skips (s : list codepoint) :
  forall quad_pos leftchar pads bin_data,
    a2b_loop (filter b64_significant s) quad_pos leftchar pads bin_data
    = a2b_loop s quad_pos leftchar pads bin_data.
Proof.
  induction s as [|c s IH]; intros quad_pos leftchar pads bin_data;
    [reflexivity|].
  cbn [filter]. unfold b64_significant at 1.
  destruct (c =? BASE64_PAD) eqn:P.
  - cbn [orb a2b_loop]. rewrite P.
    destruct (2 <=? quad_pos); [destruct (4 <=? _)|]; auto.
  - cbn [orb]. destruct (table_a2b_base64 c) as [digit|] eqn:T.
    + cbn [a2b_loop]. rewrite P, T.
      destruct quad_pos as [|[[p|p|]|[p|p|]|]]; apply IH.
    + cbn [a2b_loop]. rewrite P, T. apply IH.
Qed.

Lemma filter_ascii (f : codepoint -> bool) (s : str) :
  forallb (fun c => c <? 128) s = true ->
  forallb (fun c => c <? 128) (filter f s) = true.
Proof.
  induction s as [|c s IH]; [reflexivity|]. cbn [forallb filter].
  intro H. apply andb_prop in H. destruct H as [Hc Hs].
  destruct (f c); cbn [forallb]; rewrite ?Hc; auto.
Qed.

(** The decoder gives the same result on a text and on what is left of it
    without the characters outside the alphabet. *)
Lemma b64decode_skips (s : str) :
  forallb (fun c => c <? 128) s = true ->
  b64decode (PStr (filter b64_significant s)) = b64decode (PStr s).
Proof.
  intro H. unfold b64decode. rewrite H, (filter_ascii _ _ H).
  apply a2b_loop_skips.
Qed.

Lemma unpadded_digit d (rest : str) :
  d < 64 ->
  filter (fun c => negb (c =? BASE64_PAD)) (table_b2a_base64 d :: rest)
  = table_b2a_base64 d :: filter (fun c => negb (c =? BASE64_PAD)) rest.
Proof.
  intro H. destruct (digit_char d H) as [Hpad _]. cbn [filter]. now rewrite Hpad.
Qed.

Lemma length_three_more {A} (a b c : A) (more : list A) :
  (List.length (a :: b :: c :: more) mod 3 = List.length more mod 3)%nat.
Proof.
  change (List.length (a :: b :: c :: more)) with (3 + List.length more)%nat.
  rewrite Nat.add_comm. exact (Nat.Div0.mod_add (List.length more) 1 3).
Qed.

(** Without its padding an encoding decodes only when the bytes come in
    whole groups of three. *)
Lemma a2b_loop_unpadded (data : bytes) :
  forall bin_data,
    a2b_loop (b64encode_unpadded data) 0 0 0 bin_data
    = if (List.length data mod 3 =? 0)%nat then Ok (bin_data ++ data)
      else Err (binascii_Error (lit "Incorrect padding")).
Proof.
  unfold b64encode_unpadded.
  induction data as [|a|a b|a b c more IH] using list_ind3; intro bin.
  - cbn. now rewrite app_nil_r.
  - pose proof (to_N_lt a) as Ha. assert (H0 : 0 < 256) by lia.
    cbn [b64encode]. cbv zeta.
    rewrite <- (N.lor_0_r (N.shiftl (N.land (Byte.to_N a) 3) 4)).
    rewrite <- (shiftr_zero 4) at 1.
    rewrite (unpadded_digit _ _ (digit0_bound _ Ha)).
    rewrite (unpadded_digit _ _ (digit1_bound _ _ Ha H0)).
    rewrite (a2b_loop_digit _ _ _ _ _ _ (digit0_bound _ Ha)).
    rewrite (a2b_loop_digit _ _ _ _ _ _ (digit1_bound _ _ Ha H0)).
    reflexivity.
  - pose proof (to_N_lt a) as Ha. pose proof (to_N_lt b) as Hb.
    assert (H0 : 0 < 256) by lia.
    cbn [b64encode]. cbv zeta.
    rewrite <- (N.lor_0_r (N.shiftl (N.land (Byte.to_N b) 15) 2)).
    rewrite <- (shiftr_zero 6) at 1.
    rewrite (unpadded_digit _ _ (digit0_bound _ Ha)).
    rewrite (unpadded_digit _ _ (digit1_bound _ _ Ha Hb)).
    rewrite (unpadded_digit _ _ (digit2_bound _ _ Hb H0)).
    rewrite (a2b_loop_digit _ _ _ _ _ _ (digit0_bound _ Ha)).
    rewrite (a2b_loop_digit _ _ _ _ _ _ (digit1_bound _ _ Ha Hb)).
    rewrite (a2b_loop_digit _ _ _ _ _ _ (digit2_bound _ _ Hb H0)).
    reflexivity.
  - pose proof (to_N_lt a) as Ha. pose proof (to_N_lt b) as Hb.
    pose proof (to_N_lt c) as Hc.
    rewrite length_three_more.
    cbn [b64encode]. cbv zeta.
    rewrite (unpadded_digit _ _ (digit0_bound _ Ha)).
    rewrite (unpadded_digit _ _ (digit1_bound _ _ Ha Hb)).
    rewrite (unpadded_digit _ _ (digit2_bound _ _ Hb Hc)).
    rewrite (unpadded_digit _ _ (digit3_bound _ Hc)).
    rewrite (a2b_loop_digit _ _ _ _ _ _ (digit0_bound _ Ha)).
    rewrite (a2b_loop_digit _ _ _ _ _ _ (digit1_bound _ _ Ha Hb)).
    rewrite (a2b_loop_digit _ _ _ _ _ _ (digit2_bound _ _ Hb Hc)).
    rewrite (a2b_loop_digit _ _ _ _ _ _ (digit3_bound _ Hc)).
    rewrite (left_after_digit1 _ _ Ha Hb), (left_after_digit2 _ _ Hb Hc).
    rewrite (u8_of_mod _ a (byte0_back _ _ Ha Hb)).
    rewrite (u8_of_mod _ b (byte1_back _ _ Hb Hc)).
    rewrite (u8_of_mod _ c (byte2_back _ Hc)).
    rewrite IH. destruct (_ =? 0)%nat; [|reflexivity].
    f_equal. now rewrite <- !app_assoc.
Qed.

Lemma b64decode_unpadded (data : bytes) :
  b64decode (PStr (b64encode_unpadded data))
  = if (List.length data mod 3 =? 0)%nat then Ok data
    else Err (binascii_Error (lit "Incorrect padding")).
Proof.
  unfold b64decode, b64encode_unpadded.
  rewrite (filter_ascii _ _ (b64encode_ascii data)). unfold a2b_base64.
  exact (a2b_loop_unpadded data []).
Qed.

(** ** The lines of a summary *)

Lemma not_has_newline (s : str) : has_newline s = false -> ~ In NL s.
Proof.
  unfold has_newline. intros H Hin.
  assert (E : existsb (N.eqb NL) s = true)
    by (apply existsb_exists; exists NL; split; [exact Hin | apply N.eqb_refl]).
  congruence.
Qed.

(** The summary is some lines with content, at most three, and then empty
    strings up to three. *)
Lemma summary_lines_of_shape (text : str) :
  exists kept,
    summary_lines_of text = kept ++ repeat [] (3 - List.length kept)%nat
    /\ (List.length kept <= 3)%nat
    /\ Forall clean_line kept.
Proof.
  rewrite summary_lines_of_spec. unfold normalize_spec. cbv zeta.
  set (lines := filter nonempty (map strip (split NL (strip text)))).
  exists (firstn 3 lines). split; [reflexivity|]. split; [apply firstn_le_length|].
  apply Forall_forall. intros line H.
  assert (Hin : In line (summary_lines_of text)).
  { rewrite summary_lines_of_spec. unfold normalize_spec. cbv zeta.
    apply in_or_app. left. exact H. }
  destruct (summary_line_clean _ _ Hin) as [Hn He].
  apply firstn_incl in H. apply filter_In in H. destruct H as [_ Hne].
  split; [|split; assumption]. now destruct line.
Qed.

Lemma lstrip_same (s : str) c r :
  s = c :: r -> isspace c = false -> lstrip s = s.
Proof. intros -> H. cbn. now rewrite H. Qed.

Lemma lstrip_spaces (ws s : str) :
  forallb isspace ws = true -> lstrip (ws ++ s) = lstrip s.
Proof.
  induction ws as [|w ws IH]; [reflexivity|]. cbn [forallb app lstrip].
  intro H. apply andb_prop in H. destruct H as [Hw Hws]. rewrite Hw. auto.
Qed.

Lemma rstrip_spaces (s ws : str) :
  forallb isspace ws = true -> rstrip (s ++ ws) = rstrip s.
Proof.
  intro H. unfold rstrip. rewrite rev_app_distr, lstrip_spaces; [reflexivity|].
  rewrite forallb_forall in *. intros x Hx. apply H. now apply in_rev.
Qed.

Lemma rstrip_same (s : str) d :
  s <> [] -> isspace (last s d) = false -> rstrip s = s.
Proof.
  intros Hs Hl. unfold rstrip.
  rewrite (app_removelast_last d Hs) at 1. rewrite rev_app_distr. cbn [rev app].
  cbn [lstrip]. rewrite Hl. cbn [rev].
  rewrite rev_involutive. symmetry. now apply app_removelast_last.
Qed.

Lemma clean_line_ends (s : str) :
  clean_line s ->
  exists c r, s = c :: r /\ isspace c = false /\ isspace (last s c) = false.
Proof.
  intros (Hne & _ & He). destruct s as [|c r]; [now elim Hne|].
  exists c, r. unfold edge_space in He. apply orb_false_elim in He.
  now destruct He.
Qed.

Lemma strip_clean_line (s : str) : clean_line s -> strip s = s.
Proof.
  intro H. destruct (clean_line_ends s H) as (c & r & E & Hc & Hl).
  unfold strip. rewrite (lstrip_same s c r E Hc).
  apply (rstrip_same s c); [now subst | exact Hl].
Qed.

Lemma split_line sep (s : str) : ~ In sep s -> split sep s = [s].
Proof.
  induction s as [|c s IH]; [reflexivity|]. intro H. cbn [split].
  destruct (N.eqb_spec c sep) as [->|_]; [elim H; now left|].
  rewrite IH; [reflexivity|]. intro Hin. apply H. now right.
Qed.

Lemma split_first_line sep (s rest : str) :
  ~ In sep s -> split sep (s ++ sep :: rest) = s :: split sep rest.
Proof.
  induction s as [|c s IH]; intro H.
  - cbn [app split]. now rewrite N.eqb_refl.
  - cbn [app split]. destruct (N.eqb_spec c sep) as [->|_]; [elim H; now left|].
    rewrite IH; [reflexivity|]. intro Hin. apply H. now right.
Qed.

Lemma last_app_cons {A} (s : list A) x (r : list A) d :
  last (s ++ x :: r) d = last (x :: r) d.
Proof.
  induction s as [|c s IH]; [reflexivity|]. cbn [app]. rewrite <- IH.
  destruct (s ++ x :: r) eqn:E; [destruct s; discriminate | reflexivity].
Qed.

Lemma last_any_default {A} (l : list A) d d' : l <> [] -> last l d = last l d'.
Proof.
  induction l as [|x l IH]; [now intros []|]. intros _.
  destruct l as [|y l]; [reflexivity|].
  change (last (x :: y :: l) d) with (last (y :: l) d).
  change (last (x :: y :: l) d') with (last (y :: l) d').
  apply IH. discriminate.
Qed.

(** Stripping a text that starts and ends with a character that is not a
    space, followed by spaces, gives the text. *)
Lemma strip_trailing (s ws : str) c r :
  s = c :: r -> isspace c = false -> isspace (last s c) = false ->
  forallb isspace ws = true ->
  strip (s ++ ws) = s.
Proof.
  intros E Hc Hl Hw. unfold strip.
  rewrite (lstrip_same (s ++ ws) c (r ++ ws)); [|now subst | exact Hc].
  rewrite (rstrip_spaces _ _ Hw). apply (rstrip_same s c); [now subst | exact Hl].
Qed.

Lemma normalize_clean_lines (kept : list str) (joined : str) :
  (List.length kept <= 3)%nat ->
  Forall clean_line kept ->
  strip joined = join [NL] kept ->
  split NL (join [NL] kept) = kept ->
  summary_lines_of joined = kept ++ repeat [] (3 - List.length kept)%nat.
Proof.
  intros Hlen Hclean Hstrip Hsplit.
  rewrite summary_lines_of_spec. unfold normalize_spec. cbv zeta.
  rewrite Hstrip, Hsplit.
  assert (Hmap : map strip kept = kept).
  { clear - Hclean. induction Hclean as [|x l Hx _ IH]; [reflexivity|].
    cbn [map]. now rewrite IH, (strip_clean_line x Hx). }
  assert (Hfilter : filter nonempty kept = kept).
  { clear - Hclean. induction Hclean as [|x l Hx _ IH]; [reflexivity|].
    cbn [filter]. destruct Hx as [Hne _]. destruct x; [now elim Hne|].
    cbn [nonempty]. now rewrite IH. }
  rewrite Hmap, Hfilter, (firstn_all2 kept Hlen). reflexivity.
Qed.
(** ** The effect monad *)

Lemma bind_unfold {A B} (m : M A) (f : A -> M B) :
  bind m f
  = match snd m with
    | Normal a => (fst m ++ fst (f a), snd (f a))
    | Return r => (fst m, Return r)
    | Raise e => (fst m, Raise e)
    end.
Proof.
  destruct m as [log [a|r|e]]; simpl; try reflexivity.
  now destruct (f a).
Qed.

Lemma bind_lift {A B} (r : res A) (f : A -> M B) :
  bind (lift r) f
  = match r with
    | Ok a => f a
    | Err e => ([], Raise e)
    end.
Proof.
  destruct r as [a|e]; simpl; [|reflexivity]. now destruct (f a).
Qed.

Lemma bind_ret {A B} (a : A) (f : A -> M B) : bind (ret a) f = f a.
Proof. unfold ret. simpl. now destruct (f a). Qed.

Lemma fst_lift {A} (r : res A) : fst (lift r) = [].
Proof. now destruct r. Qed.

(** ** The stages of the handler *)


Section HandlerProperties.

Variable detect_document_text : bytes -> res pyval.
Variable invoke_model : str -> str -> str -> res bytes.
Variable json_loads : str -> res pyval.
Variable json_dumps : pyval -> str.
Variable utf8_decode : bytes -> res str.

(** The handler and its parts, at the services of the section. *)
Local Abbreviation py_json_loads := (py_json_loads json_loads).
Local Abbreviation undecodable := (undecodable json_loads).
Local Abbreviation decode_input := (decode_input json_loads json_dumps).
Local Abbreviation ocr := (ocr detect_document_text json_dumps).
Local Abbreviation summarize := (summarize invoke_model json_loads json_dumps utf8_decode).
Local Abbreviation try_body :=
  (try_body detect_document_text invoke_model json_loads json_dumps utf8_decode).
Local Abbreviation lambda_handler :=
  (lambda_handler detect_document_text invoke_model json_loads json_dumps utf8_decode).
Local Abbreviation no_file_data := (no_file_data json_dumps).
Local Abbreviation no_text := (no_text json_dumps).
Local Abbreviation success := (success json_dumps).
Local Abbreviation server_error := (server_error json_dumps).
Local Abbreviation invoke_call full_text :=
  (invoke_model_call (lit "application/json")
     (json_dumps (bedrock_request (prompt_of full_text)))
     (lit "anthropic.claude-3-sonnet-20240229-v1:0")).

(** Decoding the input calls no service, and its only [return] is the
    one for a request without file data. *)
Lemma decode_input_log event : fst (decode_input event) = [].
Proof.
  unfold decode_input.
  repeat (rewrite ?bind_lift, ?bind_ret, ?fst_lift; try case_res);
    reflexivity.
Qed.

Lemma decode_input_return event r :
  snd (decode_input event) = Return r -> r = no_file_data.
Proof.
  unfold decode_input.
  repeat (rewrite ?bind_lift, ?bind_ret; try case_res); simpl;
    try discriminate; try congruence;
    match goal with |- snd (lift ?x) = _ -> _ => destruct x; simpl; discriminate end.
Qed.

Lemma ocr_log image_bytes :
  fst (ocr image_bytes) = [detect_document_text_call image_bytes].
Proof.
  unfold ocr, call_detect_document_text. rewrite bind_unfold.
  destruct (detect_document_text image_bytes); simpl; [|reflexivity].
  repeat (rewrite ?bind_lift; try case_res); reflexivity.
Qed.

Lemma ocr_return image_bytes r :
  snd (ocr image_bytes) = Return r -> r = no_text.
Proof.
  unfold ocr, call_detect_document_text. rewrite bind_unfold.
  destruct (detect_document_text image_bytes); simpl; [|discriminate].
  repeat (rewrite ?bind_lift; try case_res); simpl; congruence.
Qed.

Lemma ocr_raise image_bytes e :
  detect_document_text image_bytes = Err e ->
  snd (ocr image_bytes) = Raise e.
Proof.
  intro H. unfold ocr, call_detect_document_text. rewrite bind_unfold, H.
  reflexivity.
Qed.

Lemma summarize_log full_text :
  fst (summarize full_text) = [invoke_call full_text].
Proof.
  unfold summarize, call_invoke_model. cbv zeta. rewrite bind_unfold.
  destruct (invoke_model _ _ _); simpl; [|reflexivity].
  repeat (rewrite ?bind_lift, ?fst_lift; try case_res); reflexivity.
Qed.

Lemma summarize_return full_text r :
  snd (summarize full_text) <> Return r.
Proof.
  unfold summarize, call_invoke_model. cbv zeta. rewrite bind_unfold.
  destruct (invoke_model _ _ _); simpl; [|discriminate].
  repeat (rewrite ?bind_lift; try case_res); simpl; try discriminate.
  match goal with |- snd (lift ?x) <> _ => destruct x; simpl; discriminate end.
Qed.

Lemma summarize_raise full_text e :
  invoke_model (lit "application/json")
               (json_dumps (bedrock_request (prompt_of full_text)))
               (lit "anthropic.claude-3-sonnet-20240229-v1:0") = Err e ->
  snd (summarize full_text) = Raise e.
Proof.
  intro H. unfold summarize, call_invoke_model. cbv zeta.
  rewrite bind_unfold, H. reflexivity.
Qed.

(** What the summary stage computes when it completes: the answer's bytes
    decode to text, the text parses to a value, the value holds the
    generated text, and the summary is that text cut into three lines. *)
Lemma summarize_normal full_text summary_lines :
  snd (summarize full_text) = Normal summary_lines ->
  exists raw text result_json content segment summary_text,
    invoke_model (lit "application/json")
                 (json_dumps (bedrock_request (prompt_of full_text)))
                 (lit "anthropic.claude-3-sonnet-20240229-v1:0") = Ok raw
    /\ utf8_decode raw = Ok text
    /\ json_loads text = Ok result_json
    /\ py_get result_json (lit "content") (PList [PDict []]) = Ok content
    /\ py_getitem_0 content = Ok segment
    /\ py_get segment (lit "text") (PStr []) = Ok (PStr summary_text)
    /\ summary_lines = summary_lines_of summary_text.
Proof.
  unfold summarize, call_invoke_model. cbv zeta. rewrite bind_unfold.
  destruct (invoke_model _ _ _) as [raw|]; simpl; [|discriminate].
  rewrite bind_lift. destruct (utf8_decode raw) as [text|] eqn:E1; [|discriminate].
  rewrite bind_lift. destruct (json_loads text) as [result_json|] eqn:E2; [|discriminate].
  rewrite bind_lift.
  destruct (py_get result_json _ _) as [content|] eqn:E3; [|discriminate].
  rewrite bind_lift. destruct (py_getitem_0 content) as [segment|] eqn:E4; [|discriminate].
  rewrite bind_lift.
  destruct (py_get segment _ _) as [summary_text|] eqn:E5; [|discriminate].
  destruct summary_text; simpl; try discriminate.
  intro H. injection H as <-.
  exists raw, text, result_json, content, segment, s. repeat split; assumption.
Qed.

(** The handler, stage by stage. *)
Lemma lambda_handler_unfold event context :
  lambda_handler event context
  = match snd (decode_input event) with
    | Return r => ([], r)
    | Raise e => ([print_call (lit "Error: " ++ exn_msg e)], server_error e)
    | Normal image_bytes =>
        match snd (ocr image_bytes) with
        | Return r => ([detect_document_text_call image_bytes], r)
        | Raise e =>
            ([detect_document_text_call image_bytes;
              print_call (lit "Error: " ++ exn_msg e)], server_error e)
        | Normal full_text =>
            match snd (summarize full_text) with
            | Return r =>
                ([detect_document_text_call image_bytes; invoke_call full_text], r)
            | Raise e =>
                ([detect_document_text_call image_bytes; invoke_call full_text;
                  print_call (lit "Error: " ++ exn_msg e)], server_error e)
            | Normal summary_lines =>
                ([detect_document_text_call image_bytes; invoke_call full_text],
                 success full_text summary_lines)
            end
        end
    end.
Proof.
  unfold lambda_handler, try_body.
  rewrite bind_unfold, decode_input_log.
  destruct (snd (decode_input event)) as [image_bytes|r|e]; try reflexivity.
  rewrite bind_unfold, ocr_log.
  destruct (snd (ocr image_bytes)) as [full_text|r|e]; try reflexivity.
  rewrite bind_unfold, summarize_log.
  destruct (snd (summarize full_text)) as [summary_lines|r|e]; reflexivity.
Qed.


(** The input stage on an event that is a dict. *)
Lemma decode_input_dict entries :
  decode_input (PDict entries)
  = if truthy (event_flag entries) then lift (b64decode (event_body entries))
    else
      match (if truthy (event_body entries)
             then py_json_loads (event_body entries)
             else Ok (PDict [])) with
      | Err e => ([], Raise e)
      | Ok event_data =>
          match py_contains (lit "file_data") event_data with
          | Err e => ([], Raise e)
          | Ok true =>
              match py_getitem_str event_data (lit "file_data") with
              | Err e => ([], Raise e)
              | Ok file_data => lift (b64decode file_data)
              end
          | Ok false => ([], Return no_file_data)
          end
      end.
Proof.
  unfold decode_input, event_flag, event_body, event_get. cbn [py_get].
  rewrite !bind_lift. cbn [lit].
  destruct (truthy _); [reflexivity|].
  destruct (truthy _).
  - rewrite bind_lift. destruct (py_json_loads _); [|reflexivity].
    rewrite bind_lift. destruct (py_contains _ _) as [[|]|]; try reflexivity.
    now rewrite bind_lift.
  - rewrite bind_ret, bind_lift. reflexivity.
Qed.

(** The OCR stage once Textract has answered with a list of blocks. *)
Lemma ocr_blocks image_bytes textract_response blocks :
  detect_document_text image_bytes = Ok textract_response ->
  py_get textract_response (lit "Blocks") (PList []) = Ok (PList blocks) ->
  snd (ocr image_bytes)
  = match text_lines_of blocks with
    | Err e => Raise e
    | Ok text_lines =>
        match py_join [NL] text_lines with
        | Err e => Raise e
        | Ok full_text =>
            if truthy (PStr full_text) then Normal full_text else Return no_text
        end
    end.
Proof.
  intros Hd Hb. unfold ocr, call_detect_document_text.
  rewrite bind_unfold, Hd. cbn [snd fst].
  rewrite bind_lift, Hb, bind_lift. cbn [py_iter].
  rewrite bind_lift. destruct (text_lines_of blocks); [|reflexivity].
  rewrite bind_lift. destruct (py_join _ _); [|reflexivity].
  now destruct (truthy _).
Qed.

Lemma str_items_strings i (items : list pyval) (strings : list str) :
  str_items i items = Ok strings -> items = map PStr strings.
Proof.
  revert i strings. induction items as [|v items IH]; intros i strings; simpl.
  - intro H. now injection H as <-.
  - destruct v; try discriminate.
    destruct (str_items (i + 1) items) eqn:E; [|discriminate].
    intro H. injection H as <-. simpl. f_equal. exact (IH _ _ E).
Qed.

Lemma str_items_of_strings (strings : list str) i :
  str_items i (map PStr strings) = Ok strings.
Proof.
  revert i. induction strings as [|s strings IH]; intro i; simpl;
    [reflexivity | now rewrite IH].
Qed.

Lemma line_block_get (d : list (str * pyval)) :
  py_eq_str (match lookup (lit "BlockType") d with
             | Some x => x
             | None => PNone
             end) (lit "LINE")
  = is_line_block (PDict d).
Proof. unfold is_line_block. now destruct (lookup _ d). Qed.

(** The comprehension on well-formed blocks: the texts of the line blocks,
    in order. *)
Lemma text_lines_of_well_formed (blocks : list pyval) :
  forallb well_formed_block blocks = true ->
  text_lines_of blocks
  = Ok (map PStr (map text_payload (filter is_line_block blocks))).
Proof.
  induction blocks as [|b blocks IH]; [reflexivity|].
  cbn [forallb]. intro H. apply andb_prop in H. destruct H as [Hb Hbs].
  specialize (IH Hbs). cbn [text_lines_of filter].
  destruct b as [| | | | | |d]; try discriminate.
  cbn [py_get res_bind]. rewrite line_block_get.
  unfold well_formed_block in Hb.
  destruct (is_line_block (PDict d)).
  - cbn [py_getitem_str text_payload map].
    destruct (lookup (lit "Text") d) as [[| | | |s| |]|]; try discriminate.
    cbn [res_bind]. now rewrite IH.
  - exact IH.
Qed.

(** The comprehension and the join, whenever both succeed. *)
Lemma text_lines_of_joined (blocks text_lines : list pyval) full_text :
  text_lines_of blocks = Ok text_lines ->
  py_join [NL] text_lines = Ok full_text ->
  full_text = joined_lines blocks.
Proof.
  intros Ht Hj. unfold py_join in Hj.
  destruct (str_items 0 text_lines) as [strings|] eqn:Hs; [|discriminate].
  injection Hj as <-. apply str_items_strings in Hs. subst text_lines.
  unfold joined_lines. f_equal. clear - Ht.
  revert strings Ht. induction blocks as [|b blocks IH]; intros strings.
  - cbn. intro H. injection H as H. now destruct strings.
  - cbn [text_lines_of filter].
    destruct b as [| | | | | |d]; try (cbn; discriminate).
    cbn [py_get res_bind]. rewrite line_block_get.
    destruct (is_line_block (PDict d)).
    + cbn [py_getitem_str].
      destruct (lookup (lit "Text") d) as [text|] eqn:Et; [|discriminate].
      cbn [res_bind].
      destruct (text_lines_of blocks) as [rest|] eqn:Er; [|discriminate].
      cbn [res_bind]. intro H. injection H as H.
      destruct strings as [|s strings]; [discriminate|].
      cbn [map] in H. injection H as Ha Hb. subst.
      cbn [map text_payload]. rewrite Et. f_equal. now apply IH.
    + apply IH.
Qed.

(** The summary stage once the model's answer has been read and parsed. *)
Lemma summarize_parsed full_text raw text result_json :
  invoke_model (lit "application/json")
               (json_dumps (bedrock_request (prompt_of full_text)))
               (lit "anthropic.claude-3-sonnet-20240229-v1:0") = Ok raw ->
  utf8_decode raw = Ok text ->
  json_loads text = Ok result_json ->
  snd (summarize full_text)
  = match (content <- py_get result_json (lit "content") (PList [PDict []]);;
           segment <- py_getitem_0 content;;
           summary_text <- py_get segment (lit "text") (PStr []);;
           py_summary_lines summary_text)%res with
    | Ok summary_lines => Normal summary_lines
    | Err e => Raise e
    end.
Proof.
  intros Hi Hu Hl. unfold summarize, call_invoke_model. cbv zeta.
  rewrite bind_unfold, Hi. cbn [snd fst].
  rewrite bind_lift, Hu, bind_lift, Hl, bind_lift.
  destruct (py_get result_json _ _) as [content|]; [|reflexivity].
  rewrite bind_lift. cbn [res_bind].
  destruct (py_getitem_0 content) as [segment|]; [|reflexivity].
  rewrite bind_lift. cbn [res_bind].
  destruct (py_get segment _ _) as [summary_text|]; [|reflexivity].
  cbn [res_bind]. now destruct (py_summary_lines summary_text).
Qed.

(** A response with status 200 is the success response of a run through
    all three stages. *)
Lemma success_run event context :
  statusCode (snd (lambda_handler event context)) = 200%Z ->
  exists image_bytes full_text summary_text,
    snd (decode_input event) = Normal image_bytes
    /\ snd (ocr image_bytes) = Normal full_text
    /\ snd (summarize full_text) = Normal (summary_lines_of summary_text)
    /\ lambda_handler event context
       = ([detect_document_text_call image_bytes; invoke_call full_text],
          success full_text (summary_lines_of summary_text)).
Proof.
  rewrite lambda_handler_unfold.
  destruct (snd (decode_input event)) as [image_bytes|r|e] eqn:D.
  - destruct (snd (ocr image_bytes)) as [full_text|r|e] eqn:O.
    + destruct (snd (summarize full_text)) as [summary_lines|r|e] eqn:S.
      * intros _.
        destruct (summarize_normal _ _ S)
          as (raw & text & rj & content & segment & summary_text & H).
        decompose [and] H. subst summary_lines.
        now exists image_bytes, full_text, summary_text.
      * now elim (summarize_return _ _ S).
      * discriminate.
    + apply ocr_return in O. subst r. discriminate.
    + discriminate.
  - apply decode_input_return in D. subst r. discriminate.
  - discriminate.
Qed.

(** Every response is one of four. *)
Lemma response_shape event context :
  let r := snd (lambda_handler event context) in
  r = no_file_data \/ r = no_text \/ (exists e, r = server_error e)
  \/ (exists full_text a b c, r = success full_text [a; b; c]).
Proof.
  cbv zeta. rewrite lambda_handler_unfold.
  destruct (snd (decode_input event)) as [image_bytes|r|e] eqn:D.
  - destruct (snd (ocr image_bytes)) as [full_text|r|e] eqn:O.
    + destruct (snd (summarize full_text)) as [summary_lines|r|e] eqn:S.
      * destruct (summarize_normal _ _ S)
          as (raw & text & rj & content & segment & summary_text & H).
        decompose [and] H. subst summary_lines.
        destruct (summary_lines_of_three summary_text) as (a & b & c & E).
        right; right; right. exists full_text, a, b, c. cbn [snd]. now rewrite E.
      * now elim (summarize_return _ _ S).
      * right; right; left. now exists e.
    + apply ocr_return in O. subst r. now right; left.
    + right; right; left. now exists e.
  - apply decode_input_return in D. subst r. now left.
  - right; right; left. now exists e.
Qed.

(** ** The handler's contract *)

(** C1: every response with status 200 carries as its [summary] a list of
    exactly three strings, whatever text the model generated. *)
Theorem C1_summary_has_three_strings event context :
  statusCode (snd (lambda_handler event context)) = 200%Z ->
  exists extracted_text a b c,
    body (snd (lambda_handler event context))
    = json_dumps (PDict [ (lit "extracted_text", PStr extracted_text);
                          (lit "summary", PList [PStr a; PStr b; PStr c]) ]).
Proof.
  intro H.
  destruct (success_run _ _ H) as (image_bytes & full_text & summary_text & _ & _ & _ & E).
  destruct (summary_lines_of_three summary_text) as (a & b & c & E3).
  exists full_text, a, b, c. rewrite E. cbn [snd]. unfold success.
  now rewrite E3.
Qed.

(** C3, as the handler has it: a payload that is present and cannot be
    decoded (bad base64 in the body or in [file_data], bad JSON in the body)
    ends in the catch-all.  The response has status 500 and the message
    "Server error: " followed by the decoder's error text; no service is
    called and nothing is raised to the caller. *)
Theorem C3_undecodable_payload_is_server_error entries context e :
  undecodable entries e ->
  lambda_handler (PDict entries) context
  = ([print_call (lit "Error: " ++ exn_msg e)], server_error e)
  /\ statusCode (server_error e) = 500%Z
  /\ body (server_error e) = json_dumps (PStr (lit "Server error: " ++ exn_msg e)).
Proof.
  intro U. split; [|split; reflexivity].
  assert (D : snd (decode_input (PDict entries)) = Raise e).
  { rewrite decode_input_dict.
    destruct U as [Hf Hb | text Hf Hb Ht Hl | text object file_data Hf Hb Ht Hl Hk Hd].
    - now rewrite Hf, Hb.
    - rewrite Hf, Hb. destruct text; [now elim Ht|]. cbn [truthy py_json_loads].
      now rewrite Hl.
    - rewrite Hf, Hb. destruct text; [now elim Ht|]. cbn [truthy py_json_loads].
      rewrite Hl. cbn [py_contains py_getitem_str]. now rewrite Hk, Hd. }
  rewrite lambda_handler_unfold, D. reflexivity.
Qed.

(** The answers the summary stage tolerates: an object without [content],
    and a first content segment without [text], both read as the empty
    text. *)
Lemma answer_without_content full_text raw text entries :
  invoke_model (lit "application/json")
               (json_dumps (bedrock_request (prompt_of full_text)))
               (lit "anthropic.claude-3-sonnet-20240229-v1:0") = Ok raw ->
  utf8_decode raw = Ok text ->
  json_loads text = Ok (PDict entries) ->
  lookup (lit "content") entries = None ->
  snd (summarize full_text) = Normal [[]; []; []].
Proof.
  intros Hi Hu Hl Hc. rewrite (summarize_parsed _ _ _ _ Hi Hu Hl).
  cbn [py_get res_bind]. now rewrite Hc.
Qed.

Lemma answer_without_text full_text raw text entries segment more :
  invoke_model (lit "application/json")
               (json_dumps (bedrock_request (prompt_of full_text)))
               (lit "anthropic.claude-3-sonnet-20240229-v1:0") = Ok raw ->
  utf8_decode raw = Ok text ->
  json_loads text = Ok (PDict entries) ->
  lookup (lit "content") entries = Some (PList (PDict segment :: more)) ->
  lookup (lit "text") segment = None ->
  snd (summarize full_text) = Normal [[]; []; []].
Proof.
  intros Hi Hu Hl Hc Ht. rewrite (summarize_parsed _ _ _ _ Hi Hu Hl).
  cbn [py_get res_bind]. rewrite Hc. cbn [py_getitem_0 py_get res_bind].
  now rewrite Ht.
Qed.

(** C4, where the handler departs from it: an answer whose [content] is an
    empty list has no content segment, and [content[0]] raises
    [IndexError]; the run ends in the catch-all with status 500. *)
Theorem C4_empty_content_is_server_error event context image_bytes full_text
        raw text entries :
  snd (decode_input event) = Normal image_bytes ->
  snd (ocr image_bytes) = Normal full_text ->
  invoke_model (lit "application/json")
               (json_dumps (bedrock_request (prompt_of full_text)))
               (lit "anthropic.claude-3-sonnet-20240229-v1:0") = Ok raw ->
  utf8_decode raw = Ok text ->
  json_loads text = Ok (PDict entries) ->
  lookup (lit "content") entries = Some (PList []) ->
  snd (lambda_handler event context)
  = server_error (Exn "IndexError" (lit "list index out of range")).
Proof.
  intros D O Hi Hu Hl Hc. rewrite lambda_handler_unfold, D, O.
  rewrite (summarize_parsed _ _ _ _ Hi Hu Hl).
  cbn [py_get res_bind]. rewrite Hc. reflexivity.
Qed.

(** C5: when the flag is off and the body is a JSON object whose
    [file_data] is the base64 text of [data], Textract is called with
    exactly [data], and with nothing else. *)
Theorem C5_file_data_reaches_ocr_unchanged (data : bytes) entries text object context :
  truthy (event_flag entries) = false ->
  event_body entries = PStr text ->
  text <> [] ->
  json_loads text = Ok (PDict object) ->
  lookup (lit "file_data") object = Some (PStr (b64encode data)) ->
  exists rest,
    fst (lambda_handler (PDict entries) context)
    = detect_document_text_call data :: rest
    /\ forall other, ~ In (detect_document_text_call other) rest.
Proof.
  intros Hf Hb Ht Hl Hk.
  assert (D : snd (decode_input (PDict entries)) = Normal data).
  { rewrite decode_input_dict, Hf, Hb. destruct text; [now elim Ht|].
    cbn [truthy py_json_loads]. rewrite Hl. cbn [py_contains py_getitem_str].
    rewrite Hk, b64decode_b64encode. reflexivity. }
  rewrite lambda_handler_unfold, D.
  destruct (snd (ocr data)) as [full_text|r|e].
  - destruct (snd (summarize full_text)); eexists; (split; [reflexivity|]);
      intros other H; cbn in H; intuition discriminate.
  - eexists; split; [reflexivity|]. intros other H; cbn in H; intuition.
  - eexists; split; [reflexivity|]. intros other H; cbn in H; intuition discriminate.
Qed.

(** C6: of the blocks Textract returns the handler keeps the line blocks,
    in the order given, and joins their texts with one newline; that string
    is what the OCR stage yields, and it is the [extracted_text] of a
    response with status 200. *)
Theorem C6_extracted_text_is_joined_lines event context image_bytes
        textract_response blocks :
  snd (decode_input event) = Normal image_bytes ->
  detect_document_text image_bytes = Ok textract_response ->
  py_get textract_response (lit "Blocks") (PList []) = Ok (PList blocks) ->
  (forallb well_formed_block blocks = true ->
   joined_lines blocks <> [] ->
   snd (ocr image_bytes) = Normal (joined_lines blocks))
  /\ (statusCode (snd (lambda_handler event context)) = 200%Z ->
      exists summary_lines,
        body (snd (lambda_handler event context))
        = json_dumps
            (PDict [ (lit "extracted_text", PStr (joined_lines blocks));
                     (lit "summary", PList (map PStr summary_lines)) ])).
Proof.
  intros D Hd Hb. split.
  - intros W N. rewrite (ocr_blocks _ _ _ Hd Hb).
    rewrite (text_lines_of_well_formed _ W). unfold py_join.
    rewrite str_items_of_strings. fold (joined_lines blocks).
    destruct (joined_lines blocks); [now elim N | reflexivity].
  - intro H.
    destruct (success_run _ _ H) as (b & full_text & summary_text & D' & O & _ & E).
    rewrite D in D'. injection D' as <-.
    rewrite (ocr_blocks _ _ _ Hd Hb) in O.
    destruct (text_lines_of blocks) as [text_lines|] eqn:T; [|discriminate].
    destruct (py_join [NL] text_lines) as [joined|] eqn:J; [|discriminate].
    destruct (truthy (PStr joined)); [|discriminate].
    injection O as ->. rewrite (text_lines_of_joined _ _ _ T J) in E.
    exists (summary_lines_of summary_text). now rewrite E.
Qed.

Lemma blocks_without_lines (blocks : list pyval) :
  forallb is_block blocks = true ->
  filter is_line_block blocks = [] ->
  forallb well_formed_block blocks = true.
Proof.
  induction blocks as [|b blocks IH]; [reflexivity|].
  cbn [forallb filter]. intros H F. apply andb_prop in H. destruct H as [Hb Hbs].
  destruct (is_line_block b) eqn:L; [discriminate|].
  rewrite (IH Hbs F), andb_true_r.
  destruct b; try discriminate. unfold well_formed_block. now rewrite L.
Qed.

(** C7: when Textract returns no line block, the handler answers with
    status 400 and "OCR found no text", and the only call it has made is
    the one to Textract: the model is never invoked. *)
Theorem C7_no_line_blocks_is_no_text event context image_bytes
        textract_response blocks :
  snd (decode_input event) = Normal image_bytes ->
  detect_document_text image_bytes = Ok textract_response ->
  py_get textract_response (lit "Blocks") (PList []) = Ok (PList blocks) ->
  forallb is_block blocks = true ->
  filter is_line_block blocks = [] ->
  lambda_handler event context
  = ([detect_document_text_call image_bytes], no_text)
  /\ statusCode no_text = 400%Z
  /\ body no_text = json_dumps (PStr (lit "OCR found no text")).
Proof.
  intros D Hd Hb B F. split; [|split; reflexivity].
  rewrite lambda_handler_unfold, D, (ocr_blocks _ _ _ Hd Hb).
  rewrite (text_lines_of_well_formed _ (blocks_without_lines _ B F)), F.
  reflexivity.
Qed.

(** C8, as the handler has it: when the flag is off and the body parses to
    a JSON object without [file_data], the handler answers with status 400
    and "No file data provided", and calls nothing. *)
Theorem C8_object_without_file_data entries text object context :
  truthy (event_flag entries) = false ->
  event_body entries = PStr text ->
  text <> [] ->
  json_loads text = Ok (PDict object) ->
  lookup (lit "file_data") object = None ->
  lambda_handler (PDict entries) context = ([], no_file_data)
  /\ statusCode no_file_data = 400%Z
  /\ body no_file_data = json_dumps (PStr (lit "No file data provided")).
Proof.
  intros Hf Hb Ht Hl Hk. split; [|split; reflexivity].
  rewrite lambda_handler_unfold, decode_input_dict, Hf, Hb.
  destruct text; [now elim Ht|]. cbn [truthy py_json_loads]. rewrite Hl.
  cbn [py_contains]. now rewrite Hk.
Qed.

(** C9: whatever is raised inside the handler, by a service call or by
    anything else, is caught: the response has status 500 and the message
    "Server error: " followed by the error text.  Nothing is raised to the
    caller, and a response is one of four: the two with status 400, the
    server error, or the success response with the text and all three
    lines. *)
Theorem C9_failures_end_in_server_error event context :
  (forall log e,
      try_body event = (log, Raise e) ->
      lambda_handler event context
      = (log ++ [print_call (lit "Error: " ++ exn_msg e)], server_error e))
  /\ (forall image_bytes e,
         snd (decode_input event) = Normal image_bytes ->
         detect_document_text image_bytes = Err e ->
         lambda_handler event context
         = ([detect_document_text_call image_bytes;
             print_call (lit "Error: " ++ exn_msg e)], server_error e))
  /\ (forall image_bytes full_text e,
         snd (decode_input event) = Normal image_bytes ->
         snd (ocr image_bytes) = Normal full_text ->
         invoke_model (lit "application/json")
                      (json_dumps (bedrock_request (prompt_of full_text)))
                      (lit "anthropic.claude-3-sonnet-20240229-v1:0") = Err e ->
         lambda_handler event context
         = ([detect_document_text_call image_bytes; invoke_call full_text;
             print_call (lit "Error: " ++ exn_msg e)], server_error e))
  /\ (forall e,
         statusCode (server_error e) = 500%Z
         /\ body (server_error e)
            = json_dumps (PStr (lit "Server error: " ++ exn_msg e)))
  /\ (let r := snd (lambda_handler event context) in
      r = no_file_data \/ r = no_text \/ (exists e, r = server_error e)
      \/ (exists full_text a b c, r = success full_text [a; b; c])).
Proof.
  repeat split.
  - intros log e H. unfold lambda_handler. now rewrite H.
  - intros image_bytes e D H. rewrite lambda_handler_unfold, D.
    now rewrite (ocr_raise _ _ H).
  - intros image_bytes full_text e D O H. rewrite lambda_handler_unfold, D, O.
    now rewrite (summarize_raise _ _ H).
  - apply response_shape.
Qed.

(** C10: in a response with status 200 no summary line holds a newline or
    starts or ends with whitespace; and with the flag off, a body that is
    absent, empty or otherwise false is answered with status 400 and "No
    file data provided" without being parsed. *)
Theorem C10_clean_lines_and_empty_body event context :
  (statusCode (snd (lambda_handler event context)) = 200%Z ->
   exists full_text summary_lines,
     snd (lambda_handler event context) = success full_text summary_lines
     /\ List.length summary_lines = 3%nat
     /\ forall line, In line summary_lines ->
                     has_newline line = false /\ edge_space line = false)
  /\ (forall entries,
         event = PDict entries ->
         truthy (event_flag entries) = false ->
         truthy (event_body entries) = false ->
         lambda_handler event context = ([], no_file_data)
         /\ statusCode no_file_data = 400%Z).
Proof.
  split.
  - intro H.
    destruct (success_run _ _ H) as (b & full_text & summary_text & _ & _ & _ & E).
    exists full_text, (summary_lines_of summary_text). rewrite E.
    split; [reflexivity|]. split; [apply summary_lines_of_length|].
    intros line. apply summary_line_clean.
  - intros entries -> Hf Hb. split; [|reflexivity].
    rewrite lambda_handler_unfold, decode_input_dict, Hf, Hb. reflexivity.
Qed.

(** ** Further properties of the handler *)

(** Once the input is decoded, Textract is called with the decoded bytes,
    first and only once. *)
Lemma calls_after_decode event context image_bytes :
  snd (decode_input event) = Normal image_bytes ->
  exists rest,
    fst (lambda_handler event context)
    = detect_document_text_call image_bytes :: rest
    /\ forall other, ~ In (detect_document_text_call other) rest.
Proof.
  intro D. rewrite lambda_handler_unfold, D.
  destruct (snd (ocr image_bytes)) as [full_text|r|e].
  - destruct (snd (summarize full_text)); eexists; (split; [reflexivity|]);
      intros other H; cbn in H; intuition discriminate.
  - eexists; split; [reflexivity|]. intros other H; cbn in H; intuition.
  - eexists; split; [reflexivity|]. intros other H; cbn in H; intuition discriminate.
Qed.

(** The response and the calls depend on the event through the outcome of
    the input stage only. *)
Lemma same_input_same_run event event' context context' :
  snd (decode_input event) = snd (decode_input event') ->
  lambda_handler event context = lambda_handler event' context'.
Proof. intro H. rewrite !lambda_handler_unfold, H. reflexivity. Qed.

(** X1: with the flag on and a body that is the base64 text of [data],
    Textract is called with exactly [data], and with nothing else. *)
Theorem X1_raw_body_reaches_ocr_unchanged (data : bytes) entries context :
  truthy (event_flag entries) = true ->
  event_body entries = PStr (b64encode data) ->
  exists rest,
    fst (lambda_handler (PDict entries) context)
    = detect_document_text_call data :: rest
    /\ forall other, ~ In (detect_document_text_call other) rest.
Proof.
  intros Hf Hb. apply calls_after_decode.
  rewrite decode_input_dict, Hf, Hb, b64decode_b64encode. reflexivity.
Qed.

(** X2: with the flag on, characters of an ASCII body that are neither in
    the base64 alphabet nor the padding (spaces, line breaks, [-], [_])
    change nothing: the run is the run on the body without them. *)
Theorem X2_characters_outside_the_alphabet_are_skipped entries entries' s
        context :
  truthy (event_flag entries) = true ->
  truthy (event_flag entries') = true ->
  event_body entries = PStr s ->
  event_body entries' = PStr (filter b64_significant s) ->
  forallb (fun c => c <? 128) s = true ->
  lambda_handler (PDict entries) context = lambda_handler (PDict entries') context.
Proof.
  intros Hf Hf' Hb Hb' Ha. apply same_input_same_run.
  rewrite !decode_input_dict, Hf, Hf', Hb, Hb', (b64decode_skips _ Ha).
  reflexivity.
Qed.

(** X3: a run is one of six.  Each service is called at most once, Textract
    before the model, the model only after text was extracted; [print]
    happens exactly in the runs that end with status 500, as the last
    thing; a run that ends with status 400 has not called the model. *)
Theorem X3_calls_in_order event context :
  lambda_handler event context = ([], no_file_data)
  \/ (exists e,
         lambda_handler event context
         = ([print_call (lit "Error: " ++ exn_msg e)], server_error e))
  \/ (exists image_bytes,
         lambda_handler event context
         = ([detect_document_text_call image_bytes], no_text))
  \/ (exists image_bytes e,
         lambda_handler event context
         = ([detect_document_text_call image_bytes;
             print_call (lit "Error: " ++ exn_msg e)], server_error e))
  \/ (exists image_bytes full_text e,
         lambda_handler event context
         = ([detect_document_text_call image_bytes; invoke_call full_text;
             print_call (lit "Error: " ++ exn_msg e)], server_error e))
  \/ (exists image_bytes full_text a b c,
         lambda_handler event context
         = ([detect_document_text_call image_bytes; invoke_call full_text],
            success full_text [a; b; c])).
Proof.
  rewrite lambda_handler_unfold.
  destruct (snd (decode_input event)) as [image_bytes|r|e] eqn:D.
  - destruct (snd (ocr image_bytes)) as [full_text|r|e] eqn:O.
    + destruct (snd (summarize full_text)) as [summary_lines|r|e] eqn:S.
      * destruct (summarize_normal _ _ S)
          as (raw & text & rj & content & segment & summary_text & H).
        decompose [and] H. subst summary_lines.
        destruct (summary_lines_of_three summary_text) as (a & b & c & E).
        do 5 right. exists image_bytes, full_text, a, b, c. now rewrite E.
      * now elim (summarize_return _ _ S).
      * do 4 right. left. now exists image_bytes, full_text, e.
    + apply ocr_return in O. subst r. do 2 right. left. now exists image_bytes.
    + do 3 right. left. now exists image_bytes, e.
  - apply decode_input_return in D. subst r. now left.
  - right. left. now exists e.
Qed.

(** X4: when the model is invoked, it is with content type
    [application/json], the fixed model id, and a request whose only message
    is the prompt line followed by the text extracted from the blocks. *)
Theorem X4_prompt_carries_the_extracted_text event context image_bytes
        textract_response blocks contentType request modelId :
  snd (decode_input event) = Normal image_bytes ->
  detect_document_text image_bytes = Ok textract_response ->
  py_get textract_response (lit "Blocks") (PList []) = Ok (PList blocks) ->
  In (invoke_model_call contentType request modelId)
     (fst (lambda_handler event context)) ->
  contentType = lit "application/json"
  /\ modelId = lit "anthropic.claude-3-sonnet-20240229-v1:0"
  /\ request
     = json_dumps
         (PDict [ (lit "anthropic_version", PStr (lit "bedrock-2023-05-31"));
                  (lit "max_tokens", PInt 200);
                  (lit "messages",
                   PList [PDict [ (lit "role", PStr (lit "user"));
                                  (lit "content",
                                   PStr (lit "Summarize this tax document in exactly 3 lines:"
                                         ++ [NL] ++ joined_lines blocks)) ]]) ]).
Proof.
  intros D Hd Hb. rewrite lambda_handler_unfold, D.
  destruct (snd (ocr image_bytes)) as [full_text|r|e] eqn:O.
  - assert (E : full_text = joined_lines blocks).
    { rewrite (ocr_blocks _ _ _ Hd Hb) in O.
      destruct (text_lines_of blocks) as [text_lines|] eqn:T; [|discriminate].
      destruct (py_join [NL] text_lines) as [joined|] eqn:J; [|discriminate].
      destruct (truthy (PStr joined)); [|discriminate].
      injection O as <-. exact (text_lines_of_joined _ _ _ T J). }
    subst full_text.
    assert (G : forall more,
               (forall c q m, ~ In (invoke_model_call c q m) more) ->
               In (invoke_model_call contentType request modelId)
                  (detect_document_text_call image_bytes
                   :: invoke_call (joined_lines blocks) :: more) ->
               contentType = lit "application/json"
               /\ modelId = lit "anthropic.claude-3-sonnet-20240229-v1:0"
               /\ request
                  = json_dumps (bedrock_request (prompt_of (joined_lines blocks)))).
    { intros more Hm [H|[H|H]]; [discriminate | | now elim (Hm _ _ _ H)].
      injection H as <- <- <-. repeat split. }
    destruct (snd (summarize (joined_lines blocks))); cbn [fst];
      apply G; intros c q m H; cbn in H; intuition discriminate.
  - cbn. intuition discriminate.
  - cbn. intuition discriminate.
Qed.

(** What the input stage has read when it yields bytes. *)
Lemma decode_input_normal event image_bytes :
  snd (decode_input event) = Normal image_bytes ->
  exists entries,
    event = PDict entries
    /\ ((truthy (event_flag entries) = true
         /\ b64decode (event_body entries) = Ok image_bytes)
        \/ (truthy (event_flag entries) = false
            /\ exists text object file_data,
                event_body entries = PStr text
                /\ text <> []
                /\ json_loads text = Ok (PDict object)
                /\ lookup (lit "file_data") object = Some (PStr file_data)
                /\ b64decode (PStr file_data) = Ok image_bytes)).
Proof.
  destruct event as [| | | | | |entries];
    try (unfold decode_input; cbn [py_get]; rewrite bind_lift; discriminate).
  rewrite decode_input_dict. intro H. exists entries. split; [reflexivity|].
  destruct (truthy (event_flag entries)).
  - left. split; [reflexivity|].
    destruct (b64decode (event_body entries)); [|discriminate].
    now injection H as ->.
  - right. split; [reflexivity|].
    destruct (event_body entries) as [| | | |text| |] eqn:B;
      try (destruct (truthy _) in H; cbn in H; discriminate).
    destruct text as [|c text]; [discriminate|].
    cbn [truthy py_json_loads] in H.
    destruct (json_loads (c :: text)) as [v|] eqn:L; [|discriminate].
    destruct v as [| | | |s|l|object]; try discriminate.
    + cbn [py_contains py_getitem_str] in H.
      destruct (is_substring _ _); discriminate.
    + cbn [py_contains py_getitem_str] in H.
      destruct (existsb _ _); discriminate.
    + cbn [py_contains py_getitem_str] in H.
      destruct (lookup (lit "file_data") object) as [fd|] eqn:K; [|discriminate].
      destruct (b64decode fd) as [b|] eqn:E; [|discriminate].
      injection H as ->.
      destruct fd as [| | | |s| |]; try discriminate.
      exists (c :: text), object, s. repeat split; try assumption. discriminate.
Qed.

(** X5: whatever bytes Textract is called with are the base64 decoding of
    the body, when the flag is on, or, when it is off, of the string under
    [file_data] in the JSON object the body parses to.  Nothing else is ever
    sent. *)
Theorem X5_ocr_receives_only_decoded_payloads event context image_bytes :
  In (detect_document_text_call image_bytes) (fst (lambda_handler event context)) ->
  exists entries,
    event = PDict entries
    /\ ((truthy (event_flag entries) = true
         /\ b64decode (event_body entries) = Ok image_bytes)
        \/ (truthy (event_flag entries) = false
            /\ exists text object file_data,
                event_body entries = PStr text
                /\ text <> []
                /\ json_loads text = Ok (PDict object)
                /\ lookup (lit "file_data") object = Some (PStr file_data)
                /\ b64decode (PStr file_data) = Ok image_bytes)).
Proof.
  intro H. destruct (snd (decode_input event)) as [b|r|e] eqn:D.
  - destruct (calls_after_decode event context b D) as (rest & E & N).
    rewrite E in H. destruct H as [H|H]; [|now elim (N _ H)].
    injection H as ->. now apply decode_input_normal.
  - rewrite lambda_handler_unfold, D in H. destruct H.
  - rewrite lambda_handler_unfold, D in H. cbn in H. intuition discriminate.
Qed.

(** X6: a request of the wrong type ends in the catch-all without a call to
    a service: an event that is not a dict has no [get], and with the flag
    off a body that is not text (an object, a list, a number) is not
    something [json.loads] reads. *)
Theorem X6_request_of_the_wrong_type event context :
  (is_dict event = false ->
   lambda_handler event context
   = ([print_call (lit "Error: " ++ exn_msg (AttributeError event "get"))],
      server_error (AttributeError event "get")))
  /\ (forall entries,
         event = PDict entries ->
         truthy (event_flag entries) = false ->
         truthy (event_body entries) = true ->
         is_str (event_body entries) = false ->
         lambda_handler event context
         = ([print_call
               (lit "Error: the JSON object must be str, bytes or bytearray, not "
                ++ type_name (event_body entries))],
            server_error
              (Exn "TypeError"
                   (lit "the JSON object must be str, bytes or bytearray, not "
                    ++ type_name (event_body entries))))).
Proof.
  split.
  - intro H. rewrite lambda_handler_unfold.
    destruct event; try discriminate;
      unfold decode_input; cbn [py_get]; rewrite bind_lift; reflexivity.
  - intros entries -> Hf Ht Hs.
    rewrite lambda_handler_unfold, decode_input_dict, Hf, Ht.
    destruct (event_body entries); try discriminate; reflexivity.
Qed.

(** X7: with the flag off, a body that parses to JSON other than an object
    never reaches a service.  The answer is status 400 "No file data
    provided" when the membership test is false (a list without the string
    [file_data], a string without that substring), and the catch-all's 500
    with a [TypeError] otherwise (null, numbers, booleans, and lists and
    strings on which the test is true). *)
Theorem X7_json_that_is_no_object entries text value context :
  truthy (event_flag entries) = false ->
  event_body entries = PStr text ->
  text <> [] ->
  json_loads text = Ok value ->
  is_dict value = false ->
  match py_contains (lit "file_data") value with
  | Ok false => lambda_handler (PDict entries) context = ([], no_file_data)
  | _ =>
      exists e,
        exn_class e = "TypeError"%string
        /\ lambda_handler (PDict entries) context
           = ([print_call (lit "Error: " ++ exn_msg e)], server_error e)
  end.
Proof.
  intros Hf Hb Ht Hl Hv.
  rewrite lambda_handler_unfold, decode_input_dict, Hf, Hb.
  destruct text; [now elim Ht|]. cbn [truthy py_json_loads]. rewrite Hl.
  destruct value; try discriminate; cbn [py_contains py_getitem_str];
    try (eexists; split; [|reflexivity]; reflexivity).
  - destruct (is_substring _ _); [|reflexivity].
    eexists; split; [|reflexivity]; reflexivity.
  - destruct (existsb _ _); [|reflexivity].
    eexists; split; [|reflexivity]; reflexivity.
Qed.

Lemma join_empty (sep : str) (parts : list str) :
  sep <> [] -> join sep parts = [] -> parts = [] \/ parts = [[]].
Proof.
  intros Hs. destruct parts as [|x [|y more]]; cbn [join].
  - now left.
  - intros ->. now right.
  - intro H. apply app_eq_nil in H. destruct H as [_ H].
    apply app_eq_nil in H. destruct H as [H _]. now elim Hs.
Qed.

(** X8: on blocks as Textract emits them, the handler answers "OCR found no
    text" exactly when there is no line block or a single one with an empty
    text.  In every other case, several empty lines included, the joined
    text is not empty and the model is invoked with it. *)
Theorem X8_no_text_exactly_when_nothing_to_join event context image_bytes
        textract_response blocks :
  snd (decode_input event) = Normal image_bytes ->
  detect_document_text image_bytes = Ok textract_response ->
  py_get textract_response (lit "Blocks") (PList []) = Ok (PList blocks) ->
  forallb well_formed_block blocks = true ->
  match map text_payload (filter is_line_block blocks) with
  | [] | [[]] =>
      lambda_handler event context
      = ([detect_document_text_call image_bytes], no_text)
  | _ =>
      exists more,
        fst (lambda_handler event context)
        = detect_document_text_call image_bytes
          :: invoke_call (joined_lines blocks) :: more
  end.
Proof.
  intros D Hd Hb W.
  assert (O : snd (ocr image_bytes)
              = if truthy (PStr (joined_lines blocks))
                then Normal (joined_lines blocks) else Return no_text).
  { rewrite (ocr_blocks _ _ _ Hd Hb), (text_lines_of_well_formed _ W).
    unfold py_join. now rewrite str_items_of_strings. }
  rewrite lambda_handler_unfold, D, O. unfold joined_lines.
  destruct (map text_payload (filter is_line_block blocks))
    as [|x [|y more]] eqn:E.
  - reflexivity.
  - destruct x; [reflexivity|]. cbn [join truthy].
    destruct (snd (summarize _)); eexists; reflexivity.
  - assert (T : truthy (PStr (join [NL] (x :: y :: more))) = true).
    { destruct (join [NL] (x :: y :: more)) eqn:J; [|reflexivity].
      apply join_empty in J; [|discriminate]. destruct J; discriminate. }
    rewrite T. destruct x; destruct (snd (summarize _)); eexists; reflexivity.
Qed.

Lemma text_lines_of_missing_text (before after : list pyval) d :
  forallb well_formed_block before = true ->
  is_line_block (PDict d) = true ->
  lookup (lit "Text") d = None ->
  text_lines_of (before ++ PDict d :: after)
  = Err (Exn "KeyError" (quoted (lit "Text"))).
Proof.
  intros W L K. induction before as [|b before IH].
  - cbn [app text_lines_of py_get res_bind]. rewrite line_block_get, L.
    cbn [py_getitem_str]. now rewrite K.
  - cbn [forallb] in W. apply andb_prop in W. destruct W as [Wb W].
    specialize (IH W). cbn [app text_lines_of].
    destruct b as [| | | | | |db]; try discriminate.
    cbn [py_get res_bind]. rewrite line_block_get.
    unfold well_formed_block in Wb.
    destruct (is_line_block (PDict db)).
    + cbn [py_getitem_str].
      destruct (lookup (lit "Text") db) as [[| | | |s| |]|]; try discriminate.
      cbn [res_bind]. now rewrite IH.
    + exact IH.
Qed.

(** X9: a line block without a [Text] entry makes [item["Text"]] raise
    [KeyError]; the run ends with status 500 and the message "Server error:
    'Text'", and the model is not invoked. *)
Theorem X9_line_block_without_text event context image_bytes textract_response
        before d after :
  snd (decode_input event) = Normal image_bytes ->
  detect_document_text image_bytes = Ok textract_response ->
  py_get textract_response (lit "Blocks") (PList [])
  = Ok (PList (before ++ PDict d :: after)) ->
  forallb well_formed_block before = true ->
  is_line_block (PDict d) = true ->
  lookup (lit "Text") d = None ->
  lambda_handler event context
  = ([detect_document_text_call image_bytes; print_call (lit "Error: 'Text'")],
     server_error (Exn "KeyError" (lit "'Text'"))).
Proof.
  intros D Hd Hb W L K.
  rewrite lambda_handler_unfold, D, (ocr_blocks _ _ _ Hd Hb).
  rewrite (text_lines_of_missing_text _ _ _ W L K). reflexivity.
Qed.

(** X10: an answer object without [content], and an answer whose first
    content segment has no [text], are read as an empty generated text: the
    response has status 200, the extracted text, and three empty summary
    lines. *)
Theorem X10_answers_read_as_empty_text event context image_bytes full_text raw
        text entries :
  snd (decode_input event) = Normal image_bytes ->
  snd (ocr image_bytes) = Normal full_text ->
  invoke_model (lit "application/json")
               (json_dumps (bedrock_request (prompt_of full_text)))
               (lit "anthropic.claude-3-sonnet-20240229-v1:0") = Ok raw ->
  utf8_decode raw = Ok text ->
  json_loads text = Ok (PDict entries) ->
  lookup (lit "content") entries = None
  \/ (exists segment more,
         lookup (lit "content") entries = Some (PList (PDict segment :: more))
         /\ lookup (lit "text") segment = None) ->
  lambda_handler event context
  = ([detect_document_text_call image_bytes; invoke_call full_text],
     success full_text [[]; []; []]).
Proof.
  intros D O Hi Hu Hl H. rewrite lambda_handler_unfold, D, O.
  destruct H as [Hc|(segment & more & Hc & Ht)].
  - now rewrite (answer_without_content _ _ _ _ Hi Hu Hl Hc).
  - now rewrite (answer_without_text _ _ _ _ _ _ Hi Hu Hl Hc Ht).
Qed.

(** X11: the whole run.  For a request that decodes, blocks as Textract
    emits them with some text on their lines, and an answer whose first
    content segment carries a text, the handler calls Textract and then the
    model, once each, and returns status 200 with the joined lines and the
    three summary lines of that text.  Further segments and entries of the
    answer play no part. *)
Theorem X11_whole_run event context image_bytes textract_response blocks raw
        text entries segment more generated :
  snd (decode_input event) = Normal image_bytes ->
  detect_document_text image_bytes = Ok textract_response ->
  py_get textract_response (lit "Blocks") (PList []) = Ok (PList blocks) ->
  forallb well_formed_block blocks = true ->
  joined_lines blocks <> [] ->
  invoke_model (lit "application/json")
               (json_dumps (bedrock_request (prompt_of (joined_lines blocks))))
               (lit "anthropic.claude-3-sonnet-20240229-v1:0") = Ok raw ->
  utf8_decode raw = Ok text ->
  json_loads text = Ok (PDict entries) ->
  lookup (lit "content") entries = Some (PList (PDict segment :: more)) ->
  lookup (lit "text") segment = Some (PStr generated) ->
  lambda_handler event context
  = ([detect_document_text_call image_bytes; invoke_call (joined_lines blocks)],
     success (joined_lines blocks) (summary_lines_of generated)).
Proof.
  intros D Hd Hb W N Hi Hu Hl Hc Ht.
  assert (O : snd (ocr image_bytes) = Normal (joined_lines blocks)).
  { rewrite (ocr_blocks _ _ _ Hd Hb), (text_lines_of_well_formed _ W).
    unfold py_join. rewrite str_items_of_strings. fold (joined_lines blocks).
    destruct (joined_lines blocks); [now elim N | reflexivity]. }
  rewrite lambda_handler_unfold, D, O, (summarize_parsed _ _ _ _ Hi Hu Hl).
  cbn [py_get res_bind]. rewrite Hc. cbn [py_getitem_0 py_get res_bind].
  rewrite Ht. reflexivity.
Qed.

(** X12: a generated text that is not a string (null, a number, a list) has
    no [strip]; after both services were called the run ends in the
    catch-all, with status 500 and the [AttributeError]'s message. *)
Theorem X12_generated_text_that_is_no_string event context image_bytes
        full_text raw text entries segment more value :
  snd (decode_input event) = Normal image_bytes ->
  snd (ocr image_bytes) = Normal full_text ->
  invoke_model (lit "application/json")
               (json_dumps (bedrock_request (prompt_of full_text)))
               (lit "anthropic.claude-3-sonnet-20240229-v1:0") = Ok raw ->
  utf8_decode raw = Ok text ->
  json_loads text = Ok (PDict entries) ->
  lookup (lit "content") entries = Some (PList (PDict segment :: more)) ->
  lookup (lit "text") segment = Some value ->
  is_str value = false ->
  lambda_handler event context
  = ([detect_document_text_call image_bytes; invoke_call full_text;
      print_call (lit "Error: " ++ exn_msg (AttributeError value "strip"))],
     server_error (AttributeError value "strip")).
Proof.
  intros D O Hi Hu Hl Hc Ht Hs.
  rewrite lambda_handler_unfold, D, O, (summarize_parsed _ _ _ _ Hi Hu Hl).
  cbn [py_get res_bind]. rewrite Hc. cbn [py_getitem_0 py_get res_bind].
  rewrite Ht. destruct value; try discriminate; reflexivity.
Qed.

(** X13: of an event the handler reads the body and whether the flag is
    true, and nothing else: two events that agree on these give the same
    calls and the same response, whatever else they hold and whatever the
    context is.  A flag such as the string "false" counts as set. *)
Theorem X13_only_body_and_flag_matter entries entries' context context' :
  event_body entries = event_body entries' ->
  truthy (event_flag entries) = truthy (event_flag entries') ->
  lambda_handler (PDict entries) context = lambda_handler (PDict entries') context'.
Proof.
  intros Hb Hf. apply same_input_same_run.
  rewrite !decode_input_dict, Hb, Hf. reflexivity.
Qed.

(** X14: with the flag on, a body that is the base64 text of [data] with the
    padding left off is accepted only when [data] comes in whole groups of
    three bytes.  Otherwise decoding raises, and the run ends with status
    500 and "Server error: Incorrect padding", no service called. *)
Theorem X14_base64_without_padding (data : bytes) entries context :
  truthy (event_flag entries) = true ->
  event_body entries = PStr (b64encode_unpadded data) ->
  ((List.length data mod 3 = 0)%nat ->
   snd (decode_input (PDict entries)) = Normal data)
  /\ ((List.length data mod 3 <> 0)%nat ->
      lambda_handler (PDict entries) context
      = ([print_call (lit "Error: Incorrect padding")],
         server_error (binascii_Error (lit "Incorrect padding")))).
Proof.
  intros Hf Hb. split; intro H.
  - rewrite decode_input_dict, Hf, Hb, b64decode_unpadded.
    apply Nat.eqb_eq in H. now rewrite H.
  - rewrite lambda_handler_unfold, decode_input_dict, Hf, Hb, b64decode_unpadded.
    apply Nat.eqb_neq in H. now rewrite H.
Qed.

End HandlerProperties.

(** C2: the summary lines are the specification's normalization of the
    generated text, and the four cases it lists come out as listed. *)
Theorem C2_summary_is_the_normalization :
  (forall text, summary_lines_of text = normalize_spec text)
  /\ (forall text, py_summary_lines (PStr text) = Ok (normalize_spec text))
  /\ summary_lines_of (lit "A" ++ [NL] ++ lit "B" ++ [NL] ++ lit "C" ++ [NL] ++ lit "D")
     = [lit "A"; lit "B"; lit "C"]
  /\ summary_lines_of (lit "A" ++ [NL; NL] ++ lit "B") = [lit "A"; lit "B"; lit ""]
  /\ summary_lines_of (lit "") = [lit ""; lit ""; lit ""]
  /\ summary_lines_of (lit "  A  " ++ [NL] ++ lit " B ") = [lit "A"; lit "B"; lit ""].
Proof.
  split; [exact summary_lines_of_spec|].
  split; [intro text; cbn; now rewrite summary_lines_of_spec|].
  repeat split; vm_compute; reflexivity.
Qed.

(** ** Sample runs *)

(** A request with a JSON envelope, a page with two lines and an answer of
    two lines: status 200, the lines joined, the summary padded to three. *)
Example sample_run_succeeds :
  sample_handler (sample_textract sample_blocks) (sample_bedrock sample_answer)
                 sample_answer (sample_event (PStr (dumps sample_envelope)) false)
  = ([ detect_document_text_call sample_image;
       invoke_model_call
         (lit "application/json")
         (dumps (bedrock_request
                   (prompt_of (lit "Form W-2" ++ [NL] ++ lit "Wages 1000"))))
         (lit "anthropic.claude-3-sonnet-20240229-v1:0") ],
     {| statusCode := 200;
        body := dumps (PDict [ (lit "extracted_text",
                                PStr (lit "Form W-2" ++ [NL] ++ lit "Wages 1000"));
                               (lit "summary",
                                PList [ PStr (lit "A W-2 form.");
                                        PStr (lit "Wages are 1000.");
                                        PStr (lit "") ]) ]) |}).
Proof. vm_compute. reflexivity. Qed.

(** An answer without [content], and one whose segment has no [text]: the
    generated text is read as empty and the summary is three empty lines. *)
Example sample_run_without_content :
  snd (sample_handler (sample_textract sample_blocks) (sample_bedrock (PDict []))
                      (PDict []) (sample_event (PStr (lit "aGVsbG8=")) true))
  = success dumps (lit "Form W-2" ++ [NL] ++ lit "Wages 1000") [[]; []; []].
Proof. vm_compute. reflexivity. Qed.

Example sample_run_without_text :
  snd (sample_handler
         (sample_textract sample_blocks)
         (sample_bedrock
            (PDict [ (lit "content", PList [ PDict [ (lit "type", PStr (lit "text")) ] ]) ]))
         (PDict [ (lit "content", PList [ PDict [ (lit "type", PStr (lit "text")) ] ]) ])
         (sample_event (PStr (lit "aGVsbG8=")) true))
  = success dumps (lit "Form W-2" ++ [NL] ++ lit "Wages 1000") [[]; []; []].
Proof. vm_compute. reflexivity. Qed.

(** The test vectors of RFC 4648, section 10. *)
Example b64encode_rfc4648 :
  map (fun s => b64encode (list_byte_of_string s))
      ["f"; "fo"; "foo"; "foob"; "fooba"; "foobar"]%string
  = map lit ["Zg=="; "Zm8="; "Zm9v"; "Zm9vYg=="; "Zm9vYmE="; "Zm9vYmFy"]%string.
Proof. vm_compute. reflexivity. Qed.

(** The decoder is lenient: characters outside the alphabet are skipped and
    what follows a complete padding is not read. *)
Example lenient_decoding :
  b64decode (PStr (lit "aGV s!bG8=Zm9v")) = Ok sample_image.
Proof. vm_compute. reflexivity. Qed.

Lemma C1_witness :
  exists extracted_text a b c,
    body (snd (sample_handler (sample_textract sample_blocks)
                              (sample_bedrock sample_answer) sample_answer
                              (sample_event (PStr (dumps sample_envelope)) false)))
    = dumps (PDict [ (lit "extracted_text", PStr extracted_text);
                     (lit "summary", PList [PStr a; PStr b; PStr c]) ]).
Proof.
  apply (C1_summary_has_three_strings
           (sample_textract sample_blocks) (sample_bedrock sample_answer)
           (loads_from (sample_documents sample_answer)) dumps ascii_decode
           (sample_event (PStr (dumps sample_envelope)) false) PNone).
  vm_compute. reflexivity.
Defined.

(** C3 fails on the handler: the body [A] with the flag on is not base64,
    and the response has status 500, not 400. *)
Lemma C3_counterexample :
  b64decode (PStr (lit "A"))
  = Err (binascii_Error
           (lit "Invalid base64-encoded string: number of data characters (1) cannot be 1 more than a multiple of 4"))
  /\ statusCode
       (snd (sample_handler (sample_textract sample_blocks)
                            (sample_bedrock sample_answer) sample_answer
                            (sample_event (PStr (lit "A")) true)))
     = 500%Z.
Proof. split; vm_compute; reflexivity. Qed.

Lemma C3_witness :
  sample_handler (sample_textract sample_blocks) (sample_bedrock sample_answer)
                 sample_answer (sample_event (PStr (lit "not json")) false)
  = ([print_call (lit "Error: Expecting value: line 1 column 1 (char 0)")],
     server_error dumps
       (Exn "JSONDecodeError" (lit "Expecting value: line 1 column 1 (char 0)"))).
Proof.
  apply (C3_undecodable_payload_is_server_error
           (sample_textract sample_blocks) (sample_bedrock sample_answer)
           (loads_from (sample_documents sample_answer)) dumps ascii_decode
           [ (lit "body", PStr (lit "not json"));
             (lit "isBase64Encoded", PBool false) ] PNone
           (Exn "JSONDecodeError" (lit "Expecting value: line 1 column 1 (char 0)"))).
  apply (bad_json_body _ _ _ (lit "not json")).
  - reflexivity.
  - reflexivity.
  - discriminate.
  - vm_compute. reflexivity.
Defined.

(** The answer with an empty list of content segments. *)
Lemma C4_witness :
  snd (sample_handler (sample_textract sample_blocks)
                      (sample_bedrock (PDict [ (lit "content", PList []) ]))
                      (PDict [ (lit "content", PList []) ])
                      (sample_event (PStr (lit "aGVsbG8=")) true))
  = server_error dumps (Exn "IndexError" (lit "list index out of range")).
Proof.
  apply (C4_empty_content_is_server_error
           (sample_textract sample_blocks)
           (sample_bedrock (PDict [ (lit "content", PList []) ]))
           (loads_from (sample_documents (PDict [ (lit "content", PList []) ])))
           dumps ascii_decode
           (sample_event (PStr (lit "aGVsbG8=")) true) PNone
           sample_image (lit "Form W-2" ++ [NL] ++ lit "Wages 1000")
           (ascii_encode (dumps (PDict [ (lit "content", PList []) ])))
           (dumps (PDict [ (lit "content", PList []) ]))
           [ (lit "content", PList []) ]);
    vm_compute; reflexivity.
Defined.

Lemma C5_witness :
  exists rest,
    fst (sample_handler (sample_textract sample_blocks)
                        (sample_bedrock sample_answer) sample_answer
                        (sample_event (PStr (dumps sample_envelope)) false))
    = detect_document_text_call sample_image :: rest
    /\ forall other, ~ In (detect_document_text_call other) rest.
Proof.
  apply (C5_file_data_reaches_ocr_unchanged
           (sample_textract sample_blocks) (sample_bedrock sample_answer)
           (loads_from (sample_documents sample_answer)) dumps ascii_decode
           sample_image
           [ (lit "body", PStr (dumps sample_envelope));
             (lit "isBase64Encoded", PBool false) ]
           (dumps sample_envelope)
           [ (lit "file_data", PStr (lit "aGVsbG8=")) ] PNone).
  - reflexivity.
  - reflexivity.
  - vm_compute. discriminate.
  - vm_compute. reflexivity.
  - vm_compute. reflexivity.
Defined.

Lemma C6_witness :
  snd (ocr (sample_textract sample_blocks) dumps sample_image)
  = Normal (lit "Form W-2" ++ [NL] ++ lit "Wages 1000")
  /\ exists summary_lines,
      body (snd (sample_handler (sample_textract sample_blocks)
                                (sample_bedrock sample_answer) sample_answer
                                (sample_event (PStr (lit "aGVsbG8=")) true)))
      = dumps (PDict [ (lit "extracted_text",
                        PStr (lit "Form W-2" ++ [NL] ++ lit "Wages 1000"));
                       (lit "summary", PList (map PStr summary_lines)) ]).
Proof.
  pose proof (C6_extracted_text_is_joined_lines
                (sample_textract sample_blocks) (sample_bedrock sample_answer)
                (loads_from (sample_documents sample_answer)) dumps ascii_decode
                (sample_event (PStr (lit "aGVsbG8=")) true) PNone
                sample_image (PDict [ (lit "Blocks", PList sample_blocks) ])
                sample_blocks
                ltac:(vm_compute; reflexivity) eq_refl eq_refl)
    as [Hocr Hbody].
  split.
  - apply Hocr; [vm_compute; reflexivity | vm_compute; discriminate].
  - apply Hbody. vm_compute. reflexivity.
Defined.

(** A blank page: Textract reports the page and no line. *)
Lemma C7_witness :
  sample_handler (sample_textract [ PDict [ (lit "BlockType", PStr (lit "PAGE")) ] ])
                 (sample_bedrock sample_answer) sample_answer
                 (sample_event (PStr (dumps sample_envelope)) false)
  = ([detect_document_text_call sample_image], no_text dumps)
  /\ statusCode (no_text dumps) = 400%Z
  /\ body (no_text dumps) = dumps (PStr (lit "OCR found no text")).
Proof.
  apply (C7_no_line_blocks_is_no_text
           (sample_textract [ PDict [ (lit "BlockType", PStr (lit "PAGE")) ] ])
           (sample_bedrock sample_answer)
           (loads_from (sample_documents sample_answer)) dumps ascii_decode
           (sample_event (PStr (dumps sample_envelope)) false) PNone
           sample_image
           (PDict [ (lit "Blocks",
                     PList [ PDict [ (lit "BlockType", PStr (lit "PAGE")) ] ]) ])
           [ PDict [ (lit "BlockType", PStr (lit "PAGE")) ] ]);
    vm_compute; reflexivity.
Defined.

(** C8 fails on the handler: the body [null] parses as JSON and holds no
    [file_data]; [in] raises a [TypeError] on [None], and the response has
    status 500, not 400. *)
Lemma C8_counterexample :
  loads_from (sample_documents sample_answer) (lit "null") = Ok PNone
  /\ (exists e, py_contains (lit "file_data") PNone = Err e)
  /\ statusCode
       (snd (sample_handler (sample_textract sample_blocks)
                            (sample_bedrock sample_answer) sample_answer
                            (sample_event (PStr (lit "null")) false)))
     = 500%Z.
Proof.
  split; [|split]; [vm_compute; reflexivity | now eexists | vm_compute; reflexivity].
Qed.

Lemma C8_witness :
  sample_handler (sample_textract sample_blocks) (sample_bedrock sample_answer)
                 sample_answer (sample_event (PStr (lit "{}")) false)
  = ([], no_file_data dumps)
  /\ statusCode (no_file_data dumps) = 400%Z
  /\ body (no_file_data dumps) = dumps (PStr (lit "No file data provided")).
Proof.
  apply (C8_object_without_file_data
           (sample_textract sample_blocks) (sample_bedrock sample_answer)
           (loads_from (sample_documents sample_answer)) dumps ascii_decode
           [ (lit "body", PStr (lit "{}")); (lit "isBase64Encoded", PBool false) ]
           (lit "{}") [] PNone).
  - reflexivity.
  - reflexivity.
  - discriminate.
  - vm_compute. reflexivity.
  - reflexivity.
Defined.

(** Textract fails, and then the model fails. *)
Lemma C9_witness :
  sample_handler (fun _ => Err (failing_client "Connection reset by peer"))
                 (sample_bedrock sample_answer) sample_answer
                 (sample_event (PStr (lit "aGVsbG8=")) true)
  = ([ detect_document_text_call sample_image;
       print_call (lit "Error: Connection reset by peer") ],
     {| statusCode := 500;
        body := dumps (PStr (lit "Server error: Connection reset by peer")) |})
  /\ snd (sample_handler (sample_textract sample_blocks)
                         (fun _ _ _ => Err (failing_client "Read timed out"))
                         sample_answer
                         (sample_event (PStr (lit "aGVsbG8=")) true))
     = {| statusCode := 500;
          body := dumps (PStr (lit "Server error: Read timed out")) |}.
Proof.
  split.
  - apply (proj1 (proj2 (C9_failures_end_in_server_error
                           (fun _ => Err (failing_client "Connection reset by peer"))
                           (sample_bedrock sample_answer)
                           (loads_from (sample_documents sample_answer))
                           dumps ascii_decode
                           (sample_event (PStr (lit "aGVsbG8=")) true) PNone))
                 sample_image (failing_client "Connection reset by peer"));
      vm_compute; reflexivity.
  - apply (f_equal snd
             (proj1 (proj2 (proj2 (C9_failures_end_in_server_error
                           (sample_textract sample_blocks)
                           (fun _ _ _ => Err (failing_client "Read timed out"))
                           (loads_from (sample_documents sample_answer))
                           dumps ascii_decode
                           (sample_event (PStr (lit "aGVsbG8=")) true) PNone)))
                 sample_image (lit "Form W-2" ++ [NL] ++ lit "Wages 1000")
                 (failing_client "Read timed out")
                 ltac:(vm_compute; reflexivity) ltac:(vm_compute; reflexivity)
                 ltac:(vm_compute; reflexivity))).
Defined.

(** A run with status 200, and requests with the flag off and no body, an
    empty body, a null body. *)
Lemma C10_witness :
  (exists full_text summary_lines,
      snd (sample_handler (sample_textract sample_blocks)
                          (sample_bedrock sample_answer) sample_answer
                          (sample_event (PStr (lit "aGVsbG8=")) true))
      = success dumps full_text summary_lines
      /\ List.length summary_lines = 3%nat
      /\ forall line, In line summary_lines ->
                      has_newline line = false /\ edge_space line = false)
  /\ sample_handler (sample_textract sample_blocks) (sample_bedrock sample_answer)
                    sample_answer (PDict [])
     = ([], no_file_data dumps)
  /\ sample_handler (sample_textract sample_blocks) (sample_bedrock sample_answer)
                    sample_answer (sample_event (PStr []) false)
     = ([], no_file_data dumps)
  /\ sample_handler (sample_textract sample_blocks) (sample_bedrock sample_answer)
                    sample_answer (sample_event PNone false)
     = ([], no_file_data dumps).
Proof.
  split; [|split; [|split]].
  - apply (proj1 (C10_clean_lines_and_empty_body
                    (sample_textract sample_blocks) (sample_bedrock sample_answer)
                    (loads_from (sample_documents sample_answer)) dumps ascii_decode
                    (sample_event (PStr (lit "aGVsbG8=")) true) PNone)).
    vm_compute. reflexivity.
  - apply (proj2 (C10_clean_lines_and_empty_body
                    (sample_textract sample_blocks) (sample_bedrock sample_answer)
                    (loads_from (sample_documents sample_answer)) dumps ascii_decode
                    (PDict []) PNone) [] eq_refl eq_refl eq_refl).
  - apply (proj2 (C10_clean_lines_and_empty_body
                    (sample_textract sample_blocks) (sample_bedrock sample_answer)
                    (loads_from (sample_documents sample_answer)) dumps ascii_decode
                    (sample_event (PStr []) false) PNone) _ eq_refl eq_refl eq_refl).
  - apply (proj2 (C10_clean_lines_and_empty_body
                    (sample_textract sample_blocks) (sample_bedrock sample_answer)
                    (loads_from (sample_documents sample_answer)) dumps ascii_decode
                    (sample_event PNone false) PNone) _ eq_refl eq_refl eq_refl).
Defined.

(** ** Further properties of the summary *)

(** X15: in a summary the empty strings are padding at the end: once a line
    is empty, the lines after it are empty. *)
Theorem X15_empty_lines_come_last (text : str) :
  exists a b c,
    summary_lines_of text = [a; b; c]
    /\ (a = [] -> b = [])
    /\ (b = [] -> c = []).
Proof.
  destruct (summary_lines_of_shape text) as (kept & E & Hlen & Hclean).
  rewrite E.
  destruct kept as [|x [|y [|z [|w more]]]]; cbn in Hlen; try lia; cbn.
  - exists [], [], []. auto.
  - exists x, [], []. auto.
  - exists x, y, []. repeat split; auto. intros ->.
    inversion Hclean as [|? ? (Hx & _) _]. now elim Hx.
  - exists x, y, z. repeat split; auto.
    + intros ->. inversion Hclean as [|? ? (Hx & _) _]. now elim Hx.
    + intros ->. inversion Hclean as [|? ? _ Hrest].
      inversion Hrest as [|? ? (Hy & _) _]. now elim Hy.
Qed.

(** X16: the summary is a fixed point of the reshaping: its three lines,
    joined by newlines and reshaped again, are the same three lines. *)
Theorem X16_summary_is_a_fixed_point (text : str) :
  summary_lines_of (join [NL] (summary_lines_of text)) = summary_lines_of text.
Proof.
  destruct (summary_lines_of_shape text) as (kept & E & Hlen & Hclean).
  rewrite E.
  destruct kept as [|x [|y [|z [|w more]]]]; cbn in Hlen; try lia.
  - vm_compute. reflexivity.
  - inversion Hclean as [|? ? Hx _]; subst.
    destruct (clean_line_ends x Hx) as (c & r & Ex & Hc & Hl).
    apply (normalize_clean_lines [x]); [cbn; lia | exact Hclean | |].
    + cbn [app repeat join Nat.sub List.length].
      apply (strip_trailing x [NL; NL] c r Ex Hc Hl). reflexivity.
    + cbn [join]. apply split_line. apply not_has_newline. apply Hx.
  - inversion Hclean as [|? ? Hx Hrest]; subst.
    inversion Hrest as [|? ? Hy _]; subst.
    destruct (clean_line_ends x Hx) as (c & r & Ex & Hc & _).
    destruct (clean_line_ends y Hy) as (cy & ry & Ey & _ & Hly).
    apply (normalize_clean_lines [x; y]); [cbn; lia | exact Hclean | |].
    + cbn [app repeat join Nat.sub List.length].
      replace (x ++ NL :: y ++ [NL]) with ((x ++ NL :: y) ++ [NL])
        by (now rewrite <- app_assoc).
      apply (strip_trailing (x ++ NL :: y) [NL] c (r ++ NL :: y));
        [now subst x | exact Hc | | reflexivity].
      rewrite last_app_cons. rewrite Ey at 1.
      change (last (NL :: cy :: ry) c) with (last (cy :: ry) c).
      rewrite <- Ey. rewrite (last_any_default y c cy); [exact Hly | now subst y].
    + cbn [join]. change (x ++ [NL] ++ y) with (x ++ NL :: y).
      rewrite split_first_line by (apply not_has_newline; apply Hx).
      rewrite split_line by (apply not_has_newline; apply Hy). reflexivity.
  - inversion Hclean as [|? ? Hx Hrest]; subst.
    inversion Hrest as [|? ? Hy Hrest']; subst.
    inversion Hrest' as [|? ? Hz _]; subst.
    destruct (clean_line_ends x Hx) as (c & r & Ex & Hc & _).
    destruct (clean_line_ends z Hz) as (cz & rz & Ez & _ & Hlz).
    apply (normalize_clean_lines [x; y; z]); [cbn; lia | exact Hclean | |].
    + cbn [app repeat join Nat.sub List.length].
      change (x ++ [NL] ++ y ++ [NL] ++ z) with (x ++ NL :: (y ++ NL :: z)).
      rewrite <- (app_nil_r (x ++ NL :: (y ++ NL :: z))) at 1.
      apply (strip_trailing (x ++ NL :: (y ++ NL :: z)) [] c
                            (r ++ NL :: (y ++ NL :: z)));
        [now subst x | exact Hc | | reflexivity].
      rewrite last_app_cons.
      change (last (NL :: (y ++ NL :: z)) c) with
        (match y ++ NL :: z with [] => NL | _ :: _ => last (y ++ NL :: z) c end).
      destruct (y ++ NL :: z) eqn:Eyz; [destruct y; discriminate|].
      rewrite <- Eyz, last_app_cons. rewrite Ez at 1.
      change (last (NL :: cz :: rz) c) with (last (cz :: rz) c).
      rewrite <- Ez. rewrite (last_any_default z c cz); [exact Hlz | now subst z].
    + cbn [join]. change (x ++ [NL] ++ y ++ [NL] ++ z) with (x ++ NL :: (y ++ NL :: z)).
      rewrite split_first_line by (apply not_has_newline; apply Hx).
      rewrite split_first_line by (apply not_has_newline; apply Hy).
      rewrite split_line by (apply not_has_newline; apply Hz). reflexivity.
Qed.

(** ** Further sample runs *)

Lemma X1_witness :
  exists rest,
    fst (sample_handler (sample_textract sample_blocks)
                        (sample_bedrock sample_answer) sample_answer
                        (sample_event (PStr (lit "aGVsbG8=")) true))
    = detect_document_text_call sample_image :: rest
    /\ forall other, ~ In (detect_document_text_call other) rest.
Proof.
  apply (X1_raw_body_reaches_ocr_unchanged
           (sample_textract sample_blocks) (sample_bedrock sample_answer)
           (loads_from (sample_documents sample_answer)) dumps ascii_decode
           sample_image
           [ (lit "body", PStr (lit "aGVsbG8="));
             (lit "isBase64Encoded", PBool true) ] PNone);
    vm_compute; reflexivity.
Defined.

(** A body broken into lines, as MIME encoders write base64. *)
Lemma X2_witness :
  sample_handler (sample_textract sample_blocks) (sample_bedrock sample_answer)
                 sample_answer
                 (sample_event (PStr (lit "aGVs" ++ [13; 10] ++ lit "bG8=")) true)
  = sample_handler (sample_textract sample_blocks) (sample_bedrock sample_answer)
                   sample_answer (sample_event (PStr (lit "aGVsbG8=")) true).
Proof.
  apply (X2_characters_outside_the_alphabet_are_skipped
           (sample_textract sample_blocks) (sample_bedrock sample_answer)
           (loads_from (sample_documents sample_answer)) dumps ascii_decode
           [ (lit "body", PStr (lit "aGVs" ++ [13; 10] ++ lit "bG8="));
             (lit "isBase64Encoded", PBool true) ]
           [ (lit "body", PStr (lit "aGVsbG8="));
             (lit "isBase64Encoded", PBool true) ]
           (lit "aGVs" ++ [13; 10] ++ lit "bG8=") PNone);
    vm_compute; reflexivity.
Defined.

Lemma X4_witness :
  lit "application/json" = lit "application/json"
  /\ lit "anthropic.claude-3-sonnet-20240229-v1:0"
     = lit "anthropic.claude-3-sonnet-20240229-v1:0"
  /\ dumps (bedrock_request (prompt_of (lit "Form W-2" ++ [NL] ++ lit "Wages 1000")))
     = dumps
         (PDict [ (lit "anthropic_version", PStr (lit "bedrock-2023-05-31"));
                  (lit "max_tokens", PInt 200);
                  (lit "messages",
                   PList [PDict [ (lit "role", PStr (lit "user"));
                                  (lit "content",
                                   PStr (lit "Summarize this tax document in exactly 3 lines:"
                                         ++ [NL] ++ joined_lines sample_blocks)) ]]) ]).
Proof.
  apply (X4_prompt_carries_the_extracted_text
           (sample_textract sample_blocks) (sample_bedrock sample_answer)
           (loads_from (sample_documents sample_answer)) dumps ascii_decode
           (sample_event (PStr (lit "aGVsbG8=")) true) PNone
           sample_image (PDict [ (lit "Blocks", PList sample_blocks) ])
           sample_blocks
           (lit "application/json")
           (dumps (bedrock_request
                     (prompt_of (lit "Form W-2" ++ [NL] ++ lit "Wages 1000"))))
           (lit "anthropic.claude-3-sonnet-20240229-v1:0")
           ltac:(vm_compute; reflexivity) eq_refl eq_refl).
  right. left. vm_compute. reflexivity.
Defined.

Lemma X5_witness :
  exists entries,
    sample_event (PStr (dumps sample_envelope)) false = PDict entries
    /\ ((truthy (event_flag entries) = true
         /\ b64decode (event_body entries) = Ok sample_image)
        \/ (truthy (event_flag entries) = false
            /\ exists text object file_data,
                event_body entries = PStr text
                /\ text <> []
                /\ loads_from (sample_documents sample_answer) text
                   = Ok (PDict object)
                /\ lookup (lit "file_data") object = Some (PStr file_data)
                /\ b64decode (PStr file_data) = Ok sample_image)).
Proof.
  apply (X5_ocr_receives_only_decoded_payloads
           (sample_textract sample_blocks) (sample_bedrock sample_answer)
           (loads_from (sample_documents sample_answer)) dumps ascii_decode
           (sample_event (PStr (dumps sample_envelope)) false) PNone
           sample_image).
  left. vm_compute. reflexivity.
Defined.

(** An event that is a list, and a body that is an object instead of the
    text of one. *)
Lemma X6_witness :
  snd (sample_handler (sample_textract sample_blocks) (sample_bedrock sample_answer)
                      sample_answer (PList []))
  = server_error dumps (AttributeError (PList []) "get")
  /\ snd (sample_handler (sample_textract sample_blocks)
                         (sample_bedrock sample_answer) sample_answer
                         (sample_event sample_envelope false))
     = server_error dumps
         (Exn "TypeError"
              (lit "the JSON object must be str, bytes or bytearray, not dict")).
Proof.
  split.
  - apply (f_equal snd
             (proj1 (X6_request_of_the_wrong_type
                       (sample_textract sample_blocks) (sample_bedrock sample_answer)
                       (loads_from (sample_documents sample_answer)) dumps
                       ascii_decode (PList []) PNone) eq_refl)).
  - apply (f_equal snd
             (proj2 (X6_request_of_the_wrong_type
                       (sample_textract sample_blocks) (sample_bedrock sample_answer)
                       (loads_from (sample_documents sample_answer)) dumps
                       ascii_decode (sample_event sample_envelope false) PNone)
                    _ eq_refl eq_refl eq_refl eq_refl)).
Defined.

Lemma X7_witness :
  exists e,
    exn_class e = "TypeError"%string
    /\ sample_handler (sample_textract sample_blocks) (sample_bedrock sample_answer)
                      sample_answer (sample_event (PStr (lit "null")) false)
       = ([print_call (lit "Error: " ++ exn_msg e)], server_error dumps e).
Proof.
  apply (X7_json_that_is_no_object
           (sample_textract sample_blocks) (sample_bedrock sample_answer)
           (loads_from (sample_documents sample_answer)) dumps ascii_decode
           [ (lit "body", PStr (lit "null")); (lit "isBase64Encoded", PBool false) ]
           (lit "null") PNone PNone).
  - reflexivity.
  - reflexivity.
  - discriminate.
  - vm_compute. reflexivity.
  - reflexivity.
Defined.

(** One line block with an empty text, and two of them. *)
Lemma X8_witness :
  sample_handler (sample_textract [block "LINE" ""]) (sample_bedrock sample_answer)
                 sample_answer (sample_event (PStr (lit "aGVsbG8=")) true)
  = ([detect_document_text_call sample_image], no_text dumps)
  /\ exists more,
      fst (sample_handler (sample_textract [block "LINE" ""; block "LINE" ""])
                          (sample_bedrock sample_answer) sample_answer
                          (sample_event (PStr (lit "aGVsbG8=")) true))
      = detect_document_text_call sample_image
        :: invoke_model_call
             (lit "application/json")
             (dumps (bedrock_request (prompt_of [NL])))
             (lit "anthropic.claude-3-sonnet-20240229-v1:0")
        :: more.
Proof.
  split.
  - apply (X8_no_text_exactly_when_nothing_to_join
             (sample_textract [block "LINE" ""]) (sample_bedrock sample_answer)
             (loads_from (sample_documents sample_answer)) dumps ascii_decode
             (sample_event (PStr (lit "aGVsbG8=")) true) PNone sample_image
             (PDict [ (lit "Blocks", PList [block "LINE" ""]) ])
             [block "LINE" ""]
             ltac:(vm_compute; reflexivity) eq_refl eq_refl eq_refl).
  - apply (X8_no_text_exactly_when_nothing_to_join
             (sample_textract [block "LINE" ""; block "LINE" ""])
             (sample_bedrock sample_answer)
             (loads_from (sample_documents sample_answer)) dumps ascii_decode
             (sample_event (PStr (lit "aGVsbG8=")) true) PNone sample_image
             (PDict [ (lit "Blocks", PList [block "LINE" ""; block "LINE" ""]) ])
             [block "LINE" ""; block "LINE" ""]
             ltac:(vm_compute; reflexivity) eq_refl eq_refl eq_refl).
Defined.

Lemma X9_witness :
  sample_handler
    (sample_textract [ block "LINE" "Form W-2";
                       PDict [ (lit "BlockType", PStr (lit "LINE")) ] ])
    (sample_bedrock sample_answer) sample_answer
    (sample_event (PStr (lit "aGVsbG8=")) true)
  = ([detect_document_text_call sample_image; print_call (lit "Error: 'Text'")],
     server_error dumps (Exn "KeyError" (lit "'Text'"))).
Proof.
  apply (X9_line_block_without_text
           (sample_textract [ block "LINE" "Form W-2";
                              PDict [ (lit "BlockType", PStr (lit "LINE")) ] ])
           (sample_bedrock sample_answer)
           (loads_from (sample_documents sample_answer)) dumps ascii_decode
           (sample_event (PStr (lit "aGVsbG8=")) true) PNone sample_image
           (PDict [ (lit "Blocks",
                     PList [ block "LINE" "Form W-2";
                             PDict [ (lit "BlockType", PStr (lit "LINE")) ] ]) ])
           [block "LINE" "Form W-2"]
           [ (lit "BlockType", PStr (lit "LINE")) ] []
           ltac:(vm_compute; reflexivity) eq_refl eq_refl eq_refl eq_refl eq_refl).
Defined.

Lemma X10_witness :
  sample_handler (sample_textract sample_blocks) (sample_bedrock (PDict []))
                 (PDict []) (sample_event (PStr (lit "aGVsbG8=")) true)
  = ([ detect_document_text_call sample_image;
       invoke_model_call
         (lit "application/json")
         (dumps (bedrock_request
                   (prompt_of (lit "Form W-2" ++ [NL] ++ lit "Wages 1000"))))
         (lit "anthropic.claude-3-sonnet-20240229-v1:0") ],
     success dumps (lit "Form W-2" ++ [NL] ++ lit "Wages 1000") [[]; []; []]).
Proof.
  apply (X10_answers_read_as_empty_text
           (sample_textract sample_blocks) (sample_bedrock (PDict []))
           (loads_from (sample_documents (PDict []))) dumps ascii_decode
           (sample_event (PStr (lit "aGVsbG8=")) true) PNone sample_image
           (lit "Form W-2" ++ [NL] ++ lit "Wages 1000")
           (ascii_encode (dumps (PDict []))) (dumps (PDict [])) []
           ltac:(vm_compute; reflexivity) ltac:(vm_compute; reflexivity)
           ltac:(vm_compute; reflexivity) ltac:(vm_compute; reflexivity)
           ltac:(vm_compute; reflexivity) (or_introl eq_refl)).
Defined.

Lemma X11_witness :
  sample_handler (sample_textract sample_blocks) (sample_bedrock sample_answer)
                 sample_answer (sample_event (PStr (dumps sample_envelope)) false)
  = ([ detect_document_text_call sample_image;
       invoke_model_call
         (lit "application/json")
         (dumps (bedrock_request (prompt_of (joined_lines sample_blocks))))
         (lit "anthropic.claude-3-sonnet-20240229-v1:0") ],
     success dumps (joined_lines sample_blocks)
             (summary_lines_of (lit " A W-2 form. " ++ [NL; NL]
                                ++ lit "Wages are 1000."))).
Proof.
  apply (X11_whole_run
           (sample_textract sample_blocks) (sample_bedrock sample_answer)
           (loads_from (sample_documents sample_answer)) dumps ascii_decode
           (sample_event (PStr (dumps sample_envelope)) false) PNone sample_image
           (PDict [ (lit "Blocks", PList sample_blocks) ]) sample_blocks
           (ascii_encode (dumps sample_answer)) (dumps sample_answer)
           [ (lit "content",
              PList [ PDict [ (lit "type", PStr (lit "text"));
                              (lit "text",
                               PStr (lit " A W-2 form. " ++ [NL; NL]
                                     ++ lit "Wages are 1000.")) ] ]) ]
           [ (lit "type", PStr (lit "text"));
             (lit "text",
              PStr (lit " A W-2 form. " ++ [NL; NL] ++ lit "Wages are 1000.")) ]
           []
           (lit " A W-2 form. " ++ [NL; NL] ++ lit "Wages are 1000.")
           ltac:(vm_compute; reflexivity) eq_refl eq_refl
           ltac:(vm_compute; reflexivity) ltac:(vm_compute; discriminate)
           ltac:(vm_compute; reflexivity) ltac:(vm_compute; reflexivity)
           ltac:(vm_compute; reflexivity) eq_refl eq_refl).
Defined.

(** An answer whose text is null. *)
Lemma X12_witness :
  sample_handler
    (sample_textract sample_blocks)
    (sample_bedrock (PDict [ (lit "content", PList [ PDict [ (lit "text", PNone) ] ]) ]))
    (PDict [ (lit "content", PList [ PDict [ (lit "text", PNone) ] ]) ])
    (sample_event (PStr (lit "aGVsbG8=")) true)
  = ([ detect_document_text_call sample_image;
       invoke_model_call
         (lit "application/json")
         (dumps (bedrock_request
                   (prompt_of (lit "Form W-2" ++ [NL] ++ lit "Wages 1000"))))
         (lit "anthropic.claude-3-sonnet-20240229-v1:0");
       print_call (lit "Error: 'NoneType' object has no attribute 'strip'") ],
     server_error dumps (AttributeError PNone "strip")).
Proof.
  apply (X12_generated_text_that_is_no_string
           (sample_textract sample_blocks)
           (sample_bedrock
              (PDict [ (lit "content", PList [ PDict [ (lit "text", PNone) ] ]) ]))
           (loads_from
              (sample_documents
                 (PDict [ (lit "content", PList [ PDict [ (lit "text", PNone) ] ]) ])))
           dumps ascii_decode
           (sample_event (PStr (lit "aGVsbG8=")) true) PNone sample_image
           (lit "Form W-2" ++ [NL] ++ lit "Wages 1000")
           (ascii_encode
              (dumps (PDict [ (lit "content", PList [ PDict [ (lit "text", PNone) ] ]) ])))
           (dumps (PDict [ (lit "content", PList [ PDict [ (lit "text", PNone) ] ]) ]))
           [ (lit "content", PList [ PDict [ (lit "text", PNone) ] ]) ]
           [ (lit "text", PNone) ] [] PNone
           ltac:(vm_compute; reflexivity) ltac:(vm_compute; reflexivity)
           ltac:(vm_compute; reflexivity) ltac:(vm_compute; reflexivity)
           ltac:(vm_compute; reflexivity) eq_refl eq_refl eq_refl).
Defined.

(** An event with headers and the flag given as the string "false", which
    counts as set. *)
Lemma X13_witness :
  lambda_handler (sample_textract sample_blocks) (sample_bedrock sample_answer)
                 (loads_from (sample_documents sample_answer)) dumps ascii_decode
                 (PDict [ (lit "headers",
                           PDict [ (lit "content-type", PStr (lit "image/png")) ]);
                          (lit "isBase64Encoded", PStr (lit "false"));
                          (lit "body", PStr (lit "aGVsbG8=")) ])
                 (PDict [ (lit "aws_request_id", PStr (lit "1")) ])
  = sample_handler (sample_textract sample_blocks) (sample_bedrock sample_answer)
                   sample_answer (sample_event (PStr (lit "aGVsbG8=")) true).
Proof.
  apply (X13_only_body_and_flag_matter
           (sample_textract sample_blocks) (sample_bedrock sample_answer)
           (loads_from (sample_documents sample_answer)) dumps ascii_decode
           [ (lit "headers", PDict [ (lit "content-type", PStr (lit "image/png")) ]);
             (lit "isBase64Encoded", PStr (lit "false"));
             (lit "body", PStr (lit "aGVsbG8=")) ]
           [ (lit "body", PStr (lit "aGVsbG8="));
             (lit "isBase64Encoded", PBool true) ]
           (PDict [ (lit "aws_request_id", PStr (lit "1")) ]) PNone);
    reflexivity.
Defined.

(** The five bytes of [hello] and the three of [foo], without padding. *)
Lemma X14_witness :
  sample_handler (sample_textract sample_blocks) (sample_bedrock sample_answer)
                 sample_answer (sample_event (PStr (lit "aGVsbG8")) true)
  = ([print_call (lit "Error: Incorrect padding")],
     server_error dumps (binascii_Error (lit "Incorrect padding")))
  /\ snd (decode_input (loads_from (sample_documents sample_answer)) dumps
                       (sample_event (PStr (lit "Zm9v")) true))
     = Normal (list_byte_of_string "foo").
Proof.
  split.
  - apply (proj2 (X14_base64_without_padding
                    (sample_textract sample_blocks) (sample_bedrock sample_answer)
                    (loads_from (sample_documents sample_answer)) dumps ascii_decode
                    sample_image
                    [ (lit "body", PStr (lit "aGVsbG8"));
                      (lit "isBase64Encoded", PBool true) ] PNone
                    eq_refl ltac:(vm_compute; reflexivity))).
    vm_compute. discriminate.
  - apply (proj1 (X14_base64_without_padding
                    (sample_textract sample_blocks) (sample_bedrock sample_answer)
                    (loads_from (sample_documents sample_answer)) dumps ascii_decode
                    (list_byte_of_string "foo")
                    [ (lit "body", PStr (lit "Zm9v"));
                      (lit "isBase64Encoded", PBool true) ] PNone
                    eq_refl ltac:(vm_compute; reflexivity))).
    reflexivity.
Defined.
